(** * Intel standard command set flash driver (flashwriter/src/intel.c)

    A shallow embedding of the command-set engine of [intel.c]: the file-level
    context ([devinf], [addr_step], [addr_shift], [sr7flag] .. [sr1flag]), the
    register-level primitives it calls ([fl_cmdwrite], [fl_write], [fl_read]),
    and the operations built on them (reset, erase, program, lock, unlock,
    status read and decode).

    The device is external to the driver.  Every bus transaction is appended
    to a log; what a data read returns is given by a read model of the board
    that sees the whole log so far.  The busy-wait loops have no bound in the
    C code, so every looping operation takes a fuel argument and reports
    [OutOfFuel] when it is exhausted. *)

From Stdlib Require Import ZArith List Bool Lia.
Import ListNotations.
Open Scope Z_scope.

(** ** Machine integers *)

(** Conversions to the C integer types used by the driver (two's complement,
    values kept in [Z]). *)
Definition uint32_t (z : Z) : Z := z mod 2 ^ 32.
Definition uint8_t (z : Z) : Z := z mod 2 ^ 8.
Definition int8_t (z : Z) : Z :=
  let r := z mod 2 ^ 8 in if r <? 2 ^ 7 then r else r - 2 ^ 8.

(** ** Macros and defines *)

Definition INTEL_BLOCK_ERASE : Z := 0x20.
Definition INTEL_FULL_ERASE : Z := 0x30.
Definition INTEL_PROGRAM_WORD : Z := 0x40.
Definition INTEL_CLEAR_STATUS : Z := 0x50.
Definition INTEL_CHANGE_LOCK : Z := 0x60.
Definition INTEL_READ_STATUS : Z := 0x70.
Definition INTEL_READ_IDCODES : Z := 0x90.
Definition INTEL_READ_QUERY : Z := 0x98.
Definition INTEL_READ_ARRAY : Z := 0xff.

Definition INTEL_SET_LOCK_BIT : Z := 0x01.
Definition INTEL_CLEAR_LOCK_BITS : Z := 0xd0.
Definition INTEL_CONFIRM : Z := 0xd0.
Definition INTEL_RESUME : Z := 0xd0.
Definition INTEL_SUSPEND : Z := 0xb0.

Definition INTEL_READY : Z := 0x80.
Definition INTEL_ERASE_SUSPEND : Z := 0x40.
Definition INTEL_ERASE_ERRORS : Z := 0x20.
Definition INTEL_PROGRAM_ERRORS : Z := 0x10.
Definition INTEL_VOLTAGE_ERRORS : Z := 0x08.
Definition INTEL_PROGRAM_SUSPEND : Z := 0x04.
Definition INTEL_LOCKBIT_ERRORS : Z := 0x02.

(** The "various status conditions": the six result kinds the file names.
    [INTEL_STATUS_READY] is the literal 0; the other five are aliases of the
    [ERR_FLASH_*] codes of errors.h. *)
Inductive intel_status : Type :=
| INTEL_STATUS_READY
| INTEL_STATUS_CMDSEQ_ERR
| INTEL_STATUS_ERASE_ERR
| INTEL_STATUS_PROG_ERR
| INTEL_STATUS_VOLTAGE_ERR
| INTEL_STATUS_LOCK_ERR.

(** ** Data structures *)

(** The parts of [dev_info_t] (flash.h) that intel.c reads. *)
Record flash_region_t : Type := mk_region {
  offset : Z;
  nblks : Z;
  blksiz : Z
}.

Record flash_geometry_t : Type := mk_geometry {
  tot_regions : Z;
  region : list flash_region_t
}.

Record dev_info_t : Type := mk_dev_info {
  dev_addr_step : Z;
  dev_addr_shift : Z;
  part_mode : Z;
  flgeo : flash_geometry_t
}.

(** [region[i]]; an index outside the table reads an empty region. *)
Definition region_at (d : dev_info_t) (i : Z) : flash_region_t :=
  nth (Z.to_nat i) (region (flgeo d)) (mk_region 0 0 0).

(** The file-level variables of intel.c (lines 112-115). *)
Record intel_statics : Type := mk_statics {
  sr7flag : Z;
  sr6flag : Z;
  sr5flag : Z;
  sr4flag : Z;
  sr3flag : Z;
  sr2flag : Z;
  sr1flag : Z;
  devinf : dev_info_t;
  addr_step : Z;
  addr_shift : Z
}.

(** Bus transactions, as seen by the device. *)
Inductive event : Type :=
| EvCmdWrite (cmdaddr cmddata : Z)
| EvWrite (addr data : Z)
| EvRead (addr data : Z)
| EvDelay.

(** The driver's world: its statics and the bus log, newest event first. *)
Record world : Type := mk_world {
  statics : intel_statics;
  bus : list event
}.

(** What intel.c takes from the rest of the program and from the board:
    the error codes of errors.h, the [BYTE_OFFSET_FACTOR] macro of flash.h,
    [fl_form_cmd], whether [NO_INTEL_UNLOCK_BLOCKS] is defined, what the
    flash answers to a data read after a given bus history, and the source
    memory read by [mem_read]. *)
Record platform : Type := mk_platform {
  ERR_FLASH_SEQ : Z;
  ERR_FLASH_ERASE : Z;
  ERR_FLASH_PROG : Z;
  ERR_FLASH_VOLTAGE : Z;
  ERR_FLASH_LOCK : Z;
  BYTE_OFFSET_FACTOR : Z -> Z;
  fl_form_cmd : Z -> Z;
  NO_INTEL_UNLOCK_BLOCKS : bool;
  flash_read : list event -> Z -> Z;
  mem_read : Z -> Z
}.

(** ** The driver monad: state, fuel exhaustion, undefined behaviour *)

Inductive outcome (A : Type) : Type :=
| Ok (a : A) (w : world)
| OutOfFuel
| Undefined.

Arguments Ok {A} a w.
Arguments OutOfFuel {A}.
Arguments Undefined {A}.

Definition M (A : Type) : Type := world -> outcome A.

Definition ret {A : Type} (a : A) : M A := fun w => Ok a w.

Definition bind {A B : Type} (m : M A) (k : A -> M B) : M B :=
  fun w =>
    match m w with
    | Ok a w' => k a w'
    | OutOfFuel => OutOfFuel
    | Undefined => Undefined
    end.

Definition out_of_fuel {A : Type} : M A := fun _ => OutOfFuel.
Definition undefined {A : Type} : M A := fun _ => Undefined.

Declare Scope drv_scope.
Delimit Scope drv_scope with drv.
Notation "x <- m ;; k" := (bind m (fun x => k))
  (at level 61, m at next level, right associativity) : drv_scope.
Notation "m ;; k" := (bind m (fun _ => k))
  (at level 61, right associativity) : drv_scope.
Open Scope drv_scope.

(** Read the statics / append to the bus log. *)
Definition static {A : Type} (f : intel_statics -> A) : M A :=
  fun w => Ok (f (statics w)) w.

Definition emit (e : event) : M unit :=
  fun w => Ok tt (mk_world (statics w) (e :: bus w)).

(** ** Address translation *)

Definition BLKADDR_TO_ADDR (d : dev_info_t) (blkaddr : Z) : Z :=
  uint32_t (Z.shiftl blkaddr (dev_addr_shift d)).

Definition ADDR_TO_BLKADDR (d : dev_info_t) (addr : Z) : Z :=
  Z.shiftr addr (dev_addr_shift d).

(** ** Status decoding *)

Definition mask_set (status flag : Z) : bool := Z.land status flag =? flag.

(** The branch structure of [intel_status_check] on the status word read. *)
Definition intel_status_decode (s : intel_statics) (status : Z) : intel_status :=
  if mask_set status (sr5flag s) then
    if mask_set status (sr4flag s) then INTEL_STATUS_CMDSEQ_ERR
    else INTEL_STATUS_ERASE_ERR
  else if mask_set status (sr4flag s) then INTEL_STATUS_PROG_ERR
  else if mask_set status (sr3flag s) then INTEL_STATUS_PROG_ERR
  else if mask_set status (sr2flag s) then INTEL_STATUS_VOLTAGE_ERR
  else if mask_set status (sr1flag s) then INTEL_STATUS_LOCK_ERR
  else INTEL_STATUS_READY.

Section Driver.

Variable P : platform.

(** The value of each status macro. *)
Definition status_value (k : intel_status) : Z :=
  match k with
  | INTEL_STATUS_READY => 0
  | INTEL_STATUS_CMDSEQ_ERR => ERR_FLASH_SEQ P
  | INTEL_STATUS_ERASE_ERR => ERR_FLASH_ERASE P
  | INTEL_STATUS_PROG_ERR => ERR_FLASH_PROG P
  | INTEL_STATUS_VOLTAGE_ERR => ERR_FLASH_VOLTAGE P
  | INTEL_STATUS_LOCK_ERR => ERR_FLASH_LOCK P
  end.

(** ** Bus primitives (extern in intel.c) *)

Definition fl_cmdwrite (cmdaddr cmddata : Z) : M unit :=
  emit (EvCmdWrite cmdaddr cmddata).

Definition fl_write (addr data : Z) : M unit :=
  emit (EvWrite addr data).

Definition fl_read (addr : Z) : M Z :=
  fun w =>
    let data := uint32_t (flash_read P (bus w) addr) in
    Ok data (mk_world (statics w) (EvRead addr data :: bus w)).

(** ** Function definitions *)

Definition intel_init_dev_params (devinfo : dev_info_t) : M unit :=
  fun w =>
    Ok tt (mk_world
             {| sr7flag := uint32_t (fl_form_cmd P INTEL_READY);
                sr6flag := uint32_t (fl_form_cmd P INTEL_ERASE_SUSPEND);
                sr5flag := uint32_t (fl_form_cmd P INTEL_ERASE_ERRORS);
                sr4flag := uint32_t (fl_form_cmd P INTEL_PROGRAM_ERRORS);
                sr3flag := uint32_t (fl_form_cmd P INTEL_VOLTAGE_ERRORS);
                sr2flag := uint32_t (fl_form_cmd P INTEL_PROGRAM_SUSPEND);
                sr1flag := uint32_t (fl_form_cmd P INTEL_LOCKBIT_ERRORS);
                devinf := devinfo;
                addr_step := uint8_t (dev_addr_step devinfo);
                addr_shift := uint8_t (dev_addr_shift devinfo) |}
             (bus w)).

Definition intel_status_delay : M unit := emit EvDelay.

Definition intel_clear_status : M unit := fl_cmdwrite 0 INTEL_CLEAR_STATUS.

Definition intel_rst_blk (blkaddr : Z) : M unit :=
  intel_clear_status ;;
  fl_cmdwrite blkaddr INTEL_READ_ARRAY ;;
  intel_status_delay.

(** [fl_read (BLKADDR_TO_ADDR (blkaddr))] *)
Definition fl_read_blk (blkaddr : Z) : M Z :=
  a <- static (fun s => BLKADDR_TO_ADDR (devinf s) blkaddr) ;;
  fl_read a.

(** [while ((data & sr7flag) != sr7flag) data = rd;] *)
Fixpoint while_busy (fuel : nat) (rd : M Z) (data : Z) : M Z :=
  sr7 <- static sr7flag ;;
  if mask_set data sr7 then ret data
  else match fuel with
       | O => out_of_fuel
       | S fuel' => d <- rd ;; while_busy fuel' rd d
       end.

(** [do { status = rd; } while ((status & sr7flag) != sr7flag);] *)
Definition do_while_busy (fuel : nat) (rd : M Z) : M Z :=
  status <- rd ;;
  while_busy fuel rd status.

Definition intel_read_status (blkaddr : Z) : M Z :=
  fl_cmdwrite blkaddr INTEL_READ_STATUS ;;
  fl_read_blk blkaddr.

Definition intel_status_check (blkaddr : Z) : M Z :=
  status <- intel_read_status blkaddr ;;
  s <- static (fun s => s) ;;
  ret (uint8_t (status_value (intel_status_decode s status))).

Definition intel_lock_block (fuel : nat) (blkaddr : Z) : M Z :=
  fl_cmdwrite blkaddr INTEL_CHANGE_LOCK ;;
  fl_cmdwrite blkaddr INTEL_SET_LOCK_BIT ;;
  intel_status_delay ;;
  _ <- do_while_busy fuel (fl_read_blk blkaddr) ;;
  intel_status_delay ;;
  status <- intel_status_check blkaddr ;;
  intel_rst_blk blkaddr ;;
  ret (uint8_t status).

Definition intel_unlock_block (fuel : nat) (blkaddr : Z) : M Z :=
  fl_cmdwrite blkaddr INTEL_CHANGE_LOCK ;;
  fl_cmdwrite blkaddr INTEL_CLEAR_LOCK_BITS ;;
  intel_status_delay ;;
  _ <- do_while_busy fuel (fl_read_blk blkaddr) ;;
  intel_status_delay ;;
  status <- intel_status_check blkaddr ;;
  intel_rst_blk blkaddr ;;
  ret (uint8_t status).

(** The part of [intel_blk_erase_dev] after the unlock guard. *)
Definition blk_erase_body (fuel : nat) (blkaddr : Z) : M Z :=
  fl_cmdwrite blkaddr INTEL_BLOCK_ERASE ;;
  fl_cmdwrite blkaddr INTEL_CONFIRM ;;
  intel_status_delay ;;
  data <- fl_read_blk blkaddr ;;
  _ <- while_busy fuel (fl_read_blk blkaddr) data ;;
  status <- intel_status_check blkaddr ;;
  intel_rst_blk blkaddr ;;
  ret (int8_t status).

Definition intel_blk_erase_dev (fuel : nat) (blkaddr : Z) : M Z :=
  if NO_INTEL_UNLOCK_BLOCKS P then blk_erase_body fuel blkaddr
  else
    status <- intel_unlock_block fuel blkaddr ;;
    if negb (status =? 0) then ret (int8_t status)
    else blk_erase_body fuel blkaddr.

(** [blkaddr = offset >> (BYTE_OFFSET_FACTOR (devinf->part_mode))] *)
Definition blkaddr_of_offset (s : intel_statics) (off : Z) : Z :=
  Z.shiftr off (BYTE_OFFSET_FACTOR P (part_mode (devinf s))).

(** Inner loop of [intel_rst_dev] over the blocks of [region[i]]: [todo]
    iterations remain, [off] is the running offset.  The bounds [nblks] and
    [tot_regions] of the [for] loops are taken when the loop is entered; no
    operation inside the loops writes the statics. *)
Fixpoint rst_region_blks (i : Z) (todo : nat) (off : Z) : M unit :=
  match todo with
  | O => ret tt
  | S todo' =>
      blkaddr <- static (fun s => blkaddr_of_offset s off) ;;
      intel_rst_blk blkaddr ;;
      sz <- static (fun s => blksiz (region_at (devinf s) i)) ;;
      rst_region_blks i todo' (uint32_t (off + sz))
  end.

(** Outer loop of [intel_rst_dev]: [todo] regions remain, starting at [i]. *)
Fixpoint rst_regions (todo : nat) (i : Z) : M unit :=
  match todo with
  | O => ret tt
  | S todo' =>
      r <- static (fun s => region_at (devinf s) i) ;;
      rst_region_blks i (Z.to_nat (nblks r)) (uint32_t (offset r)) ;;
      rst_regions todo' (i + 1)
  end.

Definition intel_rst_dev : M unit :=
  n <- static (fun s => tot_regions (flgeo (devinf s))) ;;
  rst_regions (Z.to_nat n) 0.

(** Inner loop of [intel_erase_dev]; [Some status] is the early
    [return status], [None] is falling out of the loop. *)
Fixpoint erase_region_blks (fuel : nat) (i : Z) (todo : nat) (off : Z)
  : M (option Z) :=
  match todo with
  | O => ret None
  | S todo' =>
      blkaddr <- static (fun s => blkaddr_of_offset s off) ;;
      r <- intel_blk_erase_dev fuel blkaddr ;;
      let status := uint8_t r in
      if negb (status =? 0) then ret (Some (int8_t status))
      else
        sz <- static (fun s => blksiz (region_at (devinf s) i)) ;;
        erase_region_blks fuel i todo' (uint32_t (off + sz))
  end.

Fixpoint erase_regions (fuel : nat) (todo : nat) (i : Z) : M Z :=
  match todo with
  | O => ret 0
  | S todo' =>
      r <- static (fun s => region_at (devinf s) i) ;;
      early <- erase_region_blks fuel i (Z.to_nat (nblks r)) (uint32_t (offset r)) ;;
      match early with
      | Some status => ret status
      | None => erase_regions fuel todo' (i + 1)
      end
  end.

Definition intel_erase_dev (fuel : nat) : M Z :=
  n <- static (fun s => tot_regions (flgeo (devinf s))) ;;
  erase_regions fuel (Z.to_nat n) 0.

(** "Align to address boundary":
    [if ((nbytes % addr_step)) nbytes += (addr_step - (nbytes % addr_step));]
    for a non-zero [addr_step]. *)
Definition align_nbytes (step nbytes : Z) : Z :=
  if negb (nbytes mod step =? 0)
  then uint32_t (nbytes + (step - nbytes mod step))
  else nbytes.

(** The [while (nbytes)] loop of [intel_prog_dev]; [todo] bounds the number
    of iterations, [fuel] the polls of each busy-wait. *)
Fixpoint prog_loop (todo fuel : nat) (off srcaddr nbytes : Z) : M Z :=
  if nbytes =? 0 then ret 0
  else match todo with
       | O => out_of_fuel
       | S todo' =>
           let data := mem_read P srcaddr in
           sh <- static addr_shift ;;
           fl_cmdwrite (Z.shiftr off sh) INTEL_PROGRAM_WORD ;;
           fl_write off data ;;
           intel_status_delay ;;
           d <- fl_read off ;;
           _ <- while_busy fuel (fl_read off) d ;;
           blk <- static (fun s => ADDR_TO_BLKADDR (devinf s) off) ;;
           status <- intel_status_check blk ;;
           if negb (status =? 0) then
             intel_rst_blk blk ;;
             ret (int8_t status)
           else
             step <- static addr_step ;;
             prog_loop todo' fuel (uint32_t (off + step)) (srcaddr + step)
                       (uint32_t (nbytes - step))
       end.

(** [nbytes % addr_step] divides by zero when [addr_step] is 0. *)
Definition intel_prog_dev (fuel : nat) (off srcaddr nbytes : Z) : M Z :=
  blk <- static (fun s => ADDR_TO_BLKADDR (devinf s) off) ;;
  intel_rst_blk blk ;;
  step <- static addr_step ;;
  if step =? 0 then undefined
  else prog_loop fuel fuel off srcaddr (align_nbytes step nbytes).

(** ** The operations as the design document words them *)

(** The running [offset] of the geometry walk: for each region in geometry
    order, the region's offset, advanced by the region's block size after
    each block. *)
Fixpoint region_offsets (sz : Z) (n : nat) (off : Z) : list Z :=
  match n with
  | O => []
  | S n' => off :: region_offsets sz n' (uint32_t (off + sz))
  end.

Definition region_indices (d : dev_info_t) : list Z :=
  map Z.of_nat (seq 0 (Z.to_nat (tot_regions (flgeo d)))).

Definition block_offsets (d : dev_info_t) : list Z :=
  flat_map
    (fun i =>
       let r := region_at d i in
       region_offsets (blksiz r) (Z.to_nat (nblks r)) (uint32_t (offset r)))
    (region_indices d).

(** Block Iterator: for each region in geometry order, for each block of the
    region, yield the running offset shifted to a block address, then advance
    the running offset by the region's block size. *)
Definition block_iterator (d : dev_info_t) : list Z :=
  map (fun off => Z.shiftr off (BYTE_OFFSET_FACTOR P (part_mode d)))
      (block_offsets d).

(** [erase_block] on each address in turn, stopping at the first non-ready
    result and returning it; ready when every block succeeded. *)
Fixpoint erase_each (fuel : nat) (blocks : list Z) : M Z :=
  match blocks with
  | [] => ret 0
  | b :: rest =>
      r <- intel_blk_erase_dev fuel b ;;
      if r =? 0 then erase_each fuel rest else ret r
  end.

Definition erase_device_spec (fuel : nat) : M Z :=
  blocks <- static (fun s => block_iterator (devinf s)) ;;
  erase_each fuel blocks.

(** Lock and unlock as one sequence with the confirm byte as a parameter:
    change-lock command, confirm byte, settle delay, busy-wait on ready,
    second delay, decode, reset the block, return the decoded result. *)
Definition change_lock_spec (confirm : Z) (fuel : nat) (blkaddr : Z) : M Z :=
  fl_cmdwrite blkaddr INTEL_CHANGE_LOCK ;;
  fl_cmdwrite blkaddr confirm ;;
  intel_status_delay ;;
  _ <- do_while_busy fuel (fl_read_blk blkaddr) ;;
  intel_status_delay ;;
  status <- intel_status_check blkaddr ;;
  intel_rst_blk blkaddr ;;
  ret (uint8_t status).

End Driver.

(** ** A concrete board for worked examples *)

(** One part on the bus: a status bit is its own mask.  errors.h is not
    among the sources; the board takes 1 to 5 for its five error codes (what
    matters below is that they are not 0). *)
Definition demo_platform (no_unlock : bool) (fr : list event -> Z -> Z)
  : platform :=
  mk_platform 1 2 3 4 5 (fun _ => 1) (fun c => c) no_unlock fr (fun a => a).

(** One region at offset 0 with 4 blocks of 0x10000 bytes, [addr_step] 2,
    [addr_shift] 1. *)
Definition demo_devinfo : dev_info_t :=
  mk_dev_info 2 1 1 (mk_geometry 1 [mk_region 0 4 0x10000]).

Definition demo_statics : intel_statics :=
  mk_statics INTEL_READY INTEL_ERASE_SUSPEND INTEL_ERASE_ERRORS
             INTEL_PROGRAM_ERRORS INTEL_VOLTAGE_ERRORS INTEL_PROGRAM_SUSPEND
             INTEL_LOCKBIT_ERRORS demo_devinfo 2 1.

Definition demo_world : world := mk_world demo_statics [].

(** A flash that always answers "ready, no error". *)
Definition ready_flash : list event -> Z -> Z := fun _ _ => INTEL_READY.

(** A flash that always answers "ready" with the given error bits. *)
Definition failing_flash (bits : Z) : list event -> Z -> Z :=
  fun _ _ => Z.lor INTEL_READY bits.

(** Number of data reads since the last command other than read-status. *)
Fixpoint reads_so_far (h : list event) : nat :=
  match h with
  | EvRead _ _ :: h' => S (reads_so_far h')
  | EvDelay :: h' => reads_so_far h'
  | EvCmdWrite _ c :: h' =>
      if c =? INTEL_READ_STATUS then reads_so_far h' else O
  | _ => O
  end.

(** A flash that answers "busy" to the first [n] polls after a command. *)
Definition slow_flash (n : nat) : list event -> Z -> Z :=
  fun h _ => if (reads_so_far h <? n)%nat then 0 else INTEL_READY.

(** The bus log in issue order. *)
Definition issued (w : world) : list event := rev (bus w).

(** Programming units written: the [fl_write] transactions of a log. *)
Fixpoint units_written (h : list event) : Z :=
  match h with
  | [] => 0
  | EvWrite _ _ :: h' => 1 + units_written h'
  | _ :: h' => units_written h'
  end.

(** ** Predicates used by the statements *)

(** A block address of the geometry: the block address of the byte offset at
    which one of the geometry's blocks starts. *)
Definition blkaddr_in_geometry (d : dev_info_t) (b : Z) : Prop :=
  exists off, In off (block_offsets d) /\ b = ADDR_TO_BLKADDR d off.

(** The data words of a busy-wait: every word but the last fails the ready
    test, the last one passes it. *)
Fixpoint polled_until_ready (sr7 : Z) (polls : list Z) : bool :=
  match polls with
  | [] => false
  | d :: rest =>
      match rest with
      | [] => mask_set d sr7
      | _ :: _ => negb (mask_set d sr7) && polled_until_ready sr7 rest
      end
  end.

(** The flash answers "ready" to one of the next [K + 1] reads of [a] that
    follow the history [h]. *)
Fixpoint ready_by (P : platform) (K : nat) (sr7 a : Z) (h : list event) : bool :=
  let d := uint32_t (flash_read P h a) in
  mask_set d sr7 ||
  match K with
  | O => false
  | S K' => ready_by P K' sr7 a (EvRead a d :: h)
  end.

(** The status word read back after a read-status command decodes to the
    ready code. *)
Definition status_reads_clean (P : platform) (s : intel_statics) : Prop :=
  forall h cmdaddr a,
    uint8_t (status_value P (intel_status_decode s
       (uint32_t (flash_read P (EvCmdWrite cmdaddr INTEL_READ_STATUS :: h) a)))) = 0.

(** The statics an outcome leaves behind are those it started from. *)
Definition keeps_statics {A : Type} (w : world) (o : outcome A) : Prop :=
  match o with
  | Ok _ w' => statics w' = statics w
  | OutOfFuel | Undefined => True
  end.

(** The reset of block [blkaddr] is the last bus activity of a world:
    clear-status, read-array at the block, settle delay. *)
Definition ends_with_reset (blkaddr : Z) (w : world) : Prop :=
  exists h,
    issued w = h ++ [EvCmdWrite 0 INTEL_CLEAR_STATUS;
                     EvCmdWrite blkaddr INTEL_READ_ARRAY; EvDelay].

(** [rd] is a data read of address [a] in every world whose statics are
    [s]. *)
Definition reads_at (P : platform) (rd : M Z) (s : intel_statics) (a : Z)
  : Prop :=
  forall w, statics w = s -> rd w = fl_read P a w.

(** One programming unit: the body of the [while (nbytes)] loop up to and
    including the status check. *)
Definition prog_unit (P : platform) (fuel : nat) (off srcaddr : Z) : M Z :=
  sh <- static addr_shift ;;
  fl_cmdwrite (Z.shiftr off sh) INTEL_PROGRAM_WORD ;;
  fl_write off (mem_read P srcaddr) ;;
  intel_status_delay ;;
  d <- fl_read P off ;;
  _ <- while_busy fuel (fl_read P off) d ;;
  blk <- static (fun s => ADDR_TO_BLKADDR (devinf s) off) ;;
  intel_status_check P blk.

(** [ceil (n / step)] for a positive [step]. *)
Definition ceil_div (n step : Z) : Z := (n + step - 1) / step.

(** [m] leaves the statics as it found them, from every world. *)
Definition frames {A : Type} (m : M A) : Prop :=
  forall w, keeps_statics w (m w).

(** [erase_each] with a continuation for the blocks that follow. *)
Fixpoint erase_then (P : platform) (fuel : nat) (blocks : list Z) (k : M Z)
  : M Z :=
  match blocks with
  | [] => k
  | b :: rest =>
      r <- intel_blk_erase_dev P fuel b ;;
      if r =? 0 then erase_then P fuel rest k else ret r
  end.

(** ** Observations on a bus log *)

(** The bus transactions of one [intel_rst_blk]. *)
Definition reset_events (blkaddr : Z) : list event :=
  [EvCmdWrite 0 INTEL_CLEAR_STATUS; EvCmdWrite blkaddr INTEL_READ_ARRAY;
   EvDelay].

(** The command addresses of the block-erase commands of a log. *)
Fixpoint erased_blocks (h : list event) : list Z :=
  match h with
  | [] => []
  | EvCmdWrite b c :: h' =>
      if c =? INTEL_BLOCK_ERASE then b :: erased_blocks h'
      else erased_blocks h'
  | _ :: h' => erased_blocks h'
  end.

(** The data writes of a log, as (byte address, data) pairs. *)
Fixpoint data_writes (h : list event) : list (Z * Z) :=
  match h with
  | [] => []
  | EvWrite a d :: h' => (a, d) :: data_writes h'
  | _ :: h' => data_writes h'
  end.

(** The last data read of a log. *)
Fixpoint last_read (h : list event) : option Z :=
  match h with
  | [] => None
  | EvRead _ d :: h' =>
      match last_read h' with
      | Some d' => Some d'
      | None => Some d
      end
  | _ :: h' => last_read h'
  end.

(** None of the five error masks is set in a status word. *)
Definition no_error_mask (s : intel_statics) (status : Z) : bool :=
  negb (mask_set status (sr5flag s)) && negb (mask_set status (sr4flag s))
  && negb (mask_set status (sr3flag s)) && negb (mask_set status (sr2flag s))
  && negb (mask_set status (sr1flag s)).

(** The five error codes of errors.h are not 0 as a [uint8_t]. *)
Definition error_codes_nonzero (P : platform) : Prop :=
  uint8_t (ERR_FLASH_SEQ P) <> 0 /\ uint8_t (ERR_FLASH_ERASE P) <> 0 /\
  uint8_t (ERR_FLASH_PROG P) <> 0 /\ uint8_t (ERR_FLASH_VOLTAGE P) <> 0 /\
  uint8_t (ERR_FLASH_LOCK P) <> 0.


(** The flash never answers a read with the ready mask set. *)
Definition never_ready (P : platform) (s : intel_statics) : Prop :=
  forall h a, mask_set (uint32_t (flash_read P h a)) (sr7flag s) = false.

(** * The flashwriter state machine (flashwriter/xilflash_src/flashwriter.c)

    One pass of the [while (1)] loop of [flashwriter_sm]: the command in the
    host mailbox is executed through the XFlash library, the result is put
    in the writer mailbox, and the host is called back.  The library and the
    host are external: what a library call returns, and what the host leaves
    in its mailbox and in [membuf] at a callback, are given by the board,
    which sees the log of the calls so far.  [DPRINTF] (defs.h) is taken to
    print only. *)

Module Flashwriter.

(** ** Macros and defines *)

Definition WRITER_MAX_PARAMS : nat := 4.

(** Host commands, as character codes. *)
Definition CMD_NONE : Z := 48.            (* '0' *)
Definition CMD_CFI_QRY : Z := 67.         (* 'C' *)
Definition CMD_INIT_DEV : Z := 73.        (* 'I' *)
Definition CMD_ERASE_DEV : Z := 69.       (* 'E' *)
Definition CMD_BLK_ERASE_DEV : Z := 66.   (* 'B' *)
Definition CMD_RST_DEV : Z := 82.         (* 'R' *)
Definition CMD_PROG_DEV : Z := 80.        (* 'P' *)
Definition CMD_BATCH : Z := 98.           (* 'b' *)
Definition CMD_EXIT : Z := 88.            (* 'X' *)
Definition CMD_REPLY : Z := 114.          (* 'r' *)

(** Status indicators. *)
Definition STATUS_IDLE : Z := 73.         (* 'I' *)
Definition STATUS_BUSY : Z := 66.         (* 'B' *)
Definition STATUS_ERR : Z := 69.          (* 'E' *)
Definition STATUS_SUCCESS : Z := 83.      (* 'S' *)
Definition STATUS_EXIT : Z := 88.         (* 'X' *)

(** Message parameter numbers. *)
Definition BASE_ADDR_PARAM : nat := 0.
Definition BUS_WIDTH_PARAM : nat := 1.
Definition ADDR_PARAM : nat := 0.
Definition NBYTES_PARAM : nat := 1.
Definition PROG_OFFSET_PARAM : nat := 0.
Definition DATA_BYTES_COUNT_PARAM : nat := 1.
Definition SRCADDR_PARAM : nat := 2.
Definition DEV_ALGO_PARAM : nat := 0.
Definition ERR_CODE_PARAM : nat := 0.

(** ** Data structures *)

(** [msg_t], without its padding. *)
Record msg_t : Type := mk_msg {
  cmd : Z;
  status : Z;
  param : list Z
}.

(** The source handed to [XFlash_Write]: [membuf] with its contents, or the
    address the host gave. *)
Inductive write_src : Type :=
| SrcMembuf (contents : list Z)
| SrcAddr (srcaddr : Z).

(** The calls into the XFlash library ([&devinfo] is their first argument
    throughout). *)
Inductive xcall : Type :=
| XFlash_Initialize (baseaddr buswidth isplatformflash : Z)
| XFlash_Reset
| XFlash_Unlock (addr nbytes : Z)
| XFlash_Erase (addr nbytes : Z)
| XFlash_Write (offset nbytes : Z) (src : write_src)
| XFlash_Read (offset nbytes : Z).

(** What a library call leaves behind: its return value, the command set in
    [devinfo], and for a read the contents of the destination buffer. *)
Record xreply : Type := mk_xreply {
  x_ret : Z;
  x_CommandSet : Z;
  x_readbuf : list Z
}.

(** What the writer does that others see: library calls, and callbacks with
    the writer mailbox as the host finds it. *)
Inductive fw_event : Type :=
| Call (c : xcall)
| Callback (sndmbox_seen : msg_t).

(** The writer's variables. *)
Record fw_state : Type := mk_fw {
  rcvmbox : msg_t;
  sndmbox : msg_t;
  CommandSet : Z;
  membuf : list Z;
  readbuf : list Z;
  fw_log : list fw_event
}.

(** The build and the board: [MEMBUF_SIZ], the command-set codes of
    xilflash.h, [IsPlatformFlash], the library, and the host at a callback
    (its new mailbox and the new contents of [membuf]). *)
Record fw_env : Type := mk_fw_env {
  MEMBUF_SIZ : Z;
  XFL_CMDSET_INTEL_STANDARD : Z;
  XFL_CMDSET_INTEL_EXTENDED : Z;
  XFL_CMDSET_INTEL_G18 : Z;
  IsPlatformFlash : Z;
  xilflash : list fw_event -> xcall -> xreply;
  xmd : list fw_event -> msg_t -> msg_t * list Z
}.

Inductive fw_outcome : Type :=
| FwOk (s : fw_state)
| FwUndefined.

(** ** Mailbox access macros *)

Fixpoint set_nth (n : nat) (v : Z) (l : list Z) : list Z :=
  match n, l with
  | O, _ :: l' => v :: l'
  | S n', x :: l' => x :: set_nth n' v l'
  | _, [] => []
  end.

Definition get_host_cmd (s : fw_state) : Z := cmd (rcvmbox s).
Definition get_writer_status (s : fw_state) : Z := status (sndmbox s).
Definition get_host_param (n : nat) (s : fw_state) : Z :=
  nth n (param (rcvmbox s)) 0.
Definition get_writer_param (n : nat) (s : fw_state) : Z :=
  nth n (param (sndmbox s)) 0.

Definition with_sndmbox (m : msg_t) (s : fw_state) : fw_state :=
  mk_fw (rcvmbox s) m (CommandSet s) (membuf s) (readbuf s) (fw_log s).

Definition put_writer_cmd (c : Z) (s : fw_state) : fw_state :=
  with_sndmbox (mk_msg (uint8_t c) (status (sndmbox s)) (param (sndmbox s))) s.

Definition put_writer_status (st : Z) (s : fw_state) : fw_state :=
  with_sndmbox (mk_msg (cmd (sndmbox s)) (uint8_t st) (param (sndmbox s))) s.

Definition put_writer_param (n : nat) (val : Z) (s : fw_state) : fw_state :=
  with_sndmbox
    (mk_msg (cmd (sndmbox s)) (status (sndmbox s))
            (set_nth n (uint32_t val) (param (sndmbox s)))) s.

Definition clr_host_cmd (s : fw_state) : fw_state :=
  mk_fw (mk_msg CMD_NONE (status (rcvmbox s)) (param (rcvmbox s)))
        (sndmbox s) (CommandSet s) (membuf s) (readbuf s) (fw_log s).

Definition clr_writer_cmd (s : fw_state) : fw_state :=
  put_writer_cmd CMD_NONE s.

Definition clr_writer_status (s : fw_state) : fw_state :=
  put_writer_status STATUS_IDLE s.

(** ** Function definitions *)

Section Writer.

Variable E : fw_env.

(** [ret = XFlash_...(&devinfo, ...)] with [ret] a [uint8_t]. *)
Definition xflash (c : xcall) (s : fw_state) : Z * fw_state :=
  let r := xilflash E (fw_log s) c in
  (uint8_t (x_ret r),
   mk_fw (rcvmbox s) (sndmbox s) (x_CommandSet r) (membuf s)
         (match c with
          | XFlash_Read _ _ => x_readbuf r
          | _ => readbuf s
          end)
         (fw_log s ++ [Call c])).

(** [put_writer_status (STATUS_ERR); put_writer_param (ERR_CODE_PARAM, ret);] *)
Definition report_error (ret : Z) (s : fw_state) : fw_state :=
  put_writer_param ERR_CODE_PARAM ret (put_writer_status STATUS_ERR s).

(** [xmd_callback ()]: the host finds the writer mailbox, and may leave a new
    command and new data. *)
Definition xmd_callback (s : fw_state) : fw_state :=
  let log := fw_log s ++ [Callback (sndmbox s)] in
  let h := xmd E log (sndmbox s) in
  mk_fw (fst h) (sndmbox s) (CommandSet s) (snd h) (readbuf s) log.

Definition intel_command_set (s : fw_state) : bool :=
  (CommandSet s =? XFL_CMDSET_INTEL_STANDARD E)
  || (CommandSet s =? XFL_CMDSET_INTEL_EXTENDED E)
  || (CommandSet s =? XFL_CMDSET_INTEL_G18 E).

Definition case_CMD_CFI_QRY (s : fw_state) : fw_state :=
  let s := put_writer_status STATUS_BUSY s in
  let flash_baseaddr := get_host_param BASE_ADDR_PARAM s in
  let flash_buswidth := uint8_t (get_host_param BUS_WIDTH_PARAM s) in
  let (ret, s) :=
    xflash (XFlash_Initialize flash_baseaddr (flash_buswidth / 8)
                              (IsPlatformFlash E)) s in
  if negb (ret =? 0) then report_error ret s
  else
    let s := put_writer_cmd CMD_REPLY s in
    let s := put_writer_param DEV_ALGO_PARAM (CommandSet s) s in
    put_writer_status STATUS_SUCCESS s.

Definition case_CMD_INIT_DEV (s : fw_state) : fw_state :=
  let s := put_writer_status STATUS_BUSY s in
  let s := put_writer_cmd CMD_REPLY s in
  put_writer_status STATUS_SUCCESS s.

Definition case_CMD_RST_DEV (s : fw_state) : fw_state :=
  let s := put_writer_status STATUS_BUSY s in
  let (ret, s) := xflash XFlash_Reset s in
  if negb (ret =? 0) then report_error ret s
  else put_writer_status STATUS_SUCCESS s.

Definition case_CMD_ERASE_DEV (s : fw_state) : fw_state :=
  let s := put_writer_status STATUS_BUSY s in
  let erase (s : fw_state) :=
    let (ret, s) :=
      xflash (XFlash_Erase (get_host_param ADDR_PARAM s)
                           (get_host_param NBYTES_PARAM s)) s in
    if negb (ret =? 0) then report_error ret s
    else put_writer_status STATUS_SUCCESS s in
  if intel_command_set s then
    let (ret, s) :=
      xflash (XFlash_Unlock (get_host_param ADDR_PARAM s)
                            (get_host_param NBYTES_PARAM s)) s in
    if negb (ret =? 0) then report_error ret s
    else erase s
  else erase s.

Definition case_CMD_BLK_ERASE_DEV (s : fw_state) : fw_state :=
  let s := put_writer_status STATUS_BUSY s in
  let erase (s : fw_state) :=
    let (ret, s) :=
      xflash (XFlash_Erase (get_host_param ADDR_PARAM s)
                           (get_host_param NBYTES_PARAM s)) s in
    if negb (ret =? 0) then report_error ret s
    else put_writer_status STATUS_SUCCESS s in
  if intel_command_set s then
    let (ret, s) :=
      xflash (XFlash_Unlock (get_host_param ADDR_PARAM s)
                            (get_host_param NBYTES_PARAM s)) s in
    if negb (ret =? 0) then report_error ret s
    else erase s
  else erase s.

(** [for (i = 0; i < nbytes; i++) readbuf[i] = 0;] for [nbytes] within the
    buffer. *)
Definition clear_readbuf (nbytes : Z) (s : fw_state) : fw_state :=
  mk_fw (rcvmbox s) (sndmbox s) (CommandSet s) (membuf s)
        (repeat 0 (Z.to_nat nbytes) ++ skipn (Z.to_nat nbytes) (readbuf s))
        (fw_log s).

(** The compare loop: at the first [i] with [membuf[i] != readbuf[i]] it
    reports an error with the current [ret] and leaves the loop. *)
Fixpoint verify (ret : Z) (i : nat) (todo : nat) (s : fw_state) : fw_state :=
  match todo with
  | O => s
  | S todo' =>
      if negb (nth i (membuf s) 0 =? nth i (readbuf s) 0)
      then report_error ret s
      else verify ret (S i) todo' s
  end.

Definition case_CMD_PROG_DEV (s : fw_state) : fw_outcome :=
  let s := put_writer_status STATUS_BUSY s in
  let offset := get_host_param PROG_OFFSET_PARAM s in
  let nbytes := get_host_param DATA_BYTES_COUNT_PARAM s in
  let (ret, s) :=
    xflash (XFlash_Write offset nbytes (SrcMembuf (membuf s))) s in
  if negb (ret =? 0) then FwOk (report_error ret s)
  else if MEMBUF_SIZ E <? nbytes then FwUndefined
  else
    let s := clear_readbuf nbytes s in
    let (ret, s) := xflash (XFlash_Read offset nbytes) s in
    if negb (ret =? 0) then FwOk (report_error ret s)
    else
      let s := verify ret 0 (Z.to_nat nbytes) s in
      FwOk (put_writer_status STATUS_SUCCESS s).

Definition case_CMD_BATCH (s : fw_state) : fw_state :=
  let s := put_writer_status STATUS_BUSY s in
  let offset := get_host_param PROG_OFFSET_PARAM s in
  let nbytes := get_host_param DATA_BYTES_COUNT_PARAM s in
  let srcaddr := get_host_param SRCADDR_PARAM s in
  let (ret, s) := xflash (XFlash_Write offset nbytes (SrcAddr srcaddr)) s in
  if negb (ret =? 0) then report_error ret s
  else put_writer_status STATUS_SUCCESS s.

(** [case CMD_EXIT] has no [break]: it falls into [case CMD_NONE]. *)
Definition case_CMD_NONE (s : fw_state) : fw_state :=
  put_writer_status STATUS_IDLE s.

Definition case_CMD_EXIT (s : fw_state) : fw_state :=
  case_CMD_NONE (put_writer_status STATUS_EXIT s).

(** [switch (cmd)] *)
Definition dispatch (s : fw_state) : fw_outcome :=
  let c := uint8_t (get_host_cmd s) in
  if c =? CMD_CFI_QRY then FwOk (case_CMD_CFI_QRY s)
  else if c =? CMD_INIT_DEV then FwOk (case_CMD_INIT_DEV s)
  else if c =? CMD_RST_DEV then FwOk (case_CMD_RST_DEV s)
  else if c =? CMD_ERASE_DEV then FwOk (case_CMD_ERASE_DEV s)
  else if c =? CMD_BLK_ERASE_DEV then FwOk (case_CMD_BLK_ERASE_DEV s)
  else if c =? CMD_PROG_DEV then case_CMD_PROG_DEV s
  else if c =? CMD_BATCH then FwOk (case_CMD_BATCH s)
  else if c =? CMD_EXIT then FwOk (case_CMD_EXIT s)
  else if c =? CMD_NONE then FwOk (case_CMD_NONE s)
  else FwOk s.

(** What follows the [switch]: the [else] of the status test has lost its
    statement to a comment, so it governs [xmd_callback ()]. *)
Definition after_switch (s : fw_state) : fw_state :=
  let s := clr_host_cmd s in
  let st := get_writer_status s in
  let s := if st =? STATUS_ERR then s else xmd_callback s in
  clr_writer_status (clr_writer_cmd s).

(** One pass of the [while (1)] loop of [flashwriter_sm]. *)
Definition flashwriter_sm_pass (s : fw_state) : fw_outcome :=
  match dispatch s with
  | FwOk s' => FwOk (after_switch s')
  | FwUndefined => FwUndefined
  end.

(** [main] up to the first pass: the writer mailbox is cleared. *)
Definition main_start (s : fw_state) : fw_state :=
  clr_writer_status (clr_writer_cmd s).

End Writer.

(** The library calls of a [switch]: the log grows by calls only. *)
Definition grows_by_calls (s s1 : fw_state) : Prop :=
  exists cs, fw_log s1 = fw_log s ++ map Call cs.

(** The state a pass starts from when the host command is replaced. *)
Definition with_host_cmd (c : Z) (s : fw_state) : fw_state :=
  mk_fw (mk_msg c (status (rcvmbox s)) (param (rcvmbox s)))
        (sndmbox s) (CommandSet s) (membuf s) (readbuf s) (fw_log s).

(** The events a pass has added to the log. *)
Definition new_events (s s' : fw_state) : list fw_event :=
  skipn (length (fw_log s)) (fw_log s').

(** A board for worked examples: Intel standard command set 3, extended 1,
    G18 512, [MEMBUF_SIZ] 4, a host that leaves the null command. *)
Definition demo_env (lib : list fw_event -> xcall -> xreply) : fw_env :=
  mk_fw_env 4 3 1 512 0 lib
            (fun _ _ => (mk_msg CMD_NONE 0 [0; 0; 0; 0], [0; 0; 0; 0])).

(** A library whose every call returns [ret], leaves command set [cs] and
    reads back [data]. *)
Definition const_lib (ret cs : Z) (data : list Z)
  : list fw_event -> xcall -> xreply :=
  fun _ _ => mk_xreply ret cs data.

Definition demo_fw (c : Z) (params : list Z) (buf : list Z) : fw_state :=
  mk_fw (mk_msg c 0 params) (mk_msg CMD_NONE STATUS_IDLE [0; 0; 0; 0])
        3 buf [0; 0; 0; 0] [].

End Flashwriter.

(** * Properties *)

(** ** Machine integers *)

Lemma uint32_t_small (z : Z) : 0 <= z < 2 ^ 32 -> uint32_t z = z.
Proof. intros H. unfold uint32_t. apply Z.mod_small. exact H. Qed.

Lemma uint32_t_range (z : Z) : 0 <= uint32_t z < 2 ^ 32.
Proof. unfold uint32_t. apply Z.mod_pos_bound. lia. Qed.

Lemma uint8_t_range (z : Z) : 0 <= uint8_t z < 2 ^ 8.
Proof. unfold uint8_t. apply Z.mod_pos_bound. lia. Qed.

Lemma uint8_t_idem (z : Z) : uint8_t (uint8_t z) = uint8_t z.
Proof. unfold uint8_t. apply Z.mod_mod. lia. Qed.

Lemma int8_t_zero_iff (z : Z) : int8_t z = 0 <-> uint8_t z = 0.
Proof.
  unfold int8_t, uint8_t. cbv zeta.
  pose proof (Z.mod_pos_bound z (2 ^ 8) ltac:(lia)) as Hb.
  destruct (z mod 2 ^ 8 <? 2 ^ 7) eqn:E.
  - tauto.
  - apply Z.ltb_ge in E. split; intros; lia.
Qed.

(** A value that went through [int8_t] survives the [uint8_t] / [int8_t]
    round trip of [status = intel_blk_erase_dev (...); return status;]. *)
Lemma uint8_t_int8_t (z : Z) : uint8_t (int8_t z) = uint8_t z.
Proof.
  unfold int8_t, uint8_t. cbv zeta.
  pose proof (Z.mod_pos_bound z (2 ^ 8) ltac:(lia)) as Hb.
  destruct (z mod 2 ^ 8 <? 2 ^ 7).
  - apply Z.mod_mod. lia.
  - replace (z mod 2 ^ 8 - 2 ^ 8) with (z mod 2 ^ 8 + (-1) * 2 ^ 8) by lia.
    rewrite Z_mod_plus_full. apply Z.mod_mod. lia.
Qed.

Lemma int8_t_uint8_t_int8_t (z : Z) : int8_t (uint8_t (int8_t z)) = int8_t z.
Proof.
  unfold int8_t at 1 3. cbv zeta.
  fold (uint8_t (uint8_t (int8_t z))). fold (uint8_t z).
  rewrite uint8_t_idem, uint8_t_int8_t. reflexivity.
Qed.

(** ** The status decoder *)

Lemma mask_set_true (status flag : Z) :
  mask_set status flag = true <-> Z.land status flag = flag.
Proof. unfold mask_set. apply Z.eqb_eq. Qed.

(** [intel_status_check] always returns: it issues the read-status command,
    reads the status word and returns the value of the decoded kind. *)
Lemma intel_status_check_eq (P : platform) (blkaddr : Z) (w : world) :
  let a := BLKADDR_TO_ADDR (devinf (statics w)) blkaddr in
  let h := EvCmdWrite blkaddr INTEL_READ_STATUS :: bus w in
  let status := uint32_t (flash_read P h a) in
  intel_status_check P blkaddr w =
  Ok (uint8_t (status_value P (intel_status_decode (statics w) status)))
     (mk_world (statics w) (EvRead a status :: h)).
Proof. reflexivity. Qed.

(** C1. The decoder is a total function of the status word and the masks: it
    does not look at the rest of the context, it returns exactly one kind for
    every status word, and that kind is the sequence error exactly when the
    erase-error mask and the program-error mask are both set in the word; in
    that case neither the erase error nor the program error is reported.
    [intel_status_check] returns the value of the decoded kind. *)
Theorem intel_status_decode_sequence_error :
  forall (P : platform) (s : intel_statics) (status : Z),
    (exists! k, intel_status_decode s status = k) /\
    (forall d step shift,
        intel_status_decode
          (mk_statics (sr7flag s) (sr6flag s) (sr5flag s) (sr4flag s)
                      (sr3flag s) (sr2flag s) (sr1flag s) d step shift) status
        = intel_status_decode s status) /\
    (intel_status_decode s status = INTEL_STATUS_CMDSEQ_ERR <->
     Z.land status (sr5flag s) = sr5flag s /\
     Z.land status (sr4flag s) = sr4flag s) /\
    (forall blkaddr h,
        exists status' w',
          intel_status_check P blkaddr (mk_world s h) =
          Ok (uint8_t (status_value P (intel_status_decode s status'))) w').
Proof.
  intros P s status. split; [| split; [| split]].
  - exists (intel_status_decode s status). split; [reflexivity | auto].
  - reflexivity.
  - split.
    + intros Hk. unfold intel_status_decode in Hk.
      rewrite <- !mask_set_true.
      destruct (mask_set status (sr5flag s)), (mask_set status (sr4flag s));
        try (split; reflexivity); try discriminate.
      destruct (mask_set status (sr3flag s)); [discriminate |].
      destruct (mask_set status (sr2flag s)); [discriminate |].
      destruct (mask_set status (sr1flag s)); discriminate.
    + intros [H5 H4]. apply mask_set_true in H5, H4.
      unfold intel_status_decode. rewrite H5, H4. reflexivity.
  - intros blkaddr h. rewrite intel_status_check_eq. cbv zeta.
    eexists. eexists. reflexivity.
Qed.

(** ** Address translation *)

Lemma region_offsets_range (sz : Z) (n : nat) :
  forall off x, 0 <= off < 2 ^ 32 -> In x (region_offsets sz n off) ->
                0 <= x < 2 ^ 32.
Proof.
  induction n as [| n IH]; intros off x Hoff Hin; simpl in Hin.
  - contradiction.
  - destruct Hin as [<- | Hin]; [exact Hoff |].
    apply (IH (uint32_t (off + sz))); [apply uint32_t_range | exact Hin].
Qed.

Lemma block_offsets_range (d : dev_info_t) (x : Z) :
  In x (block_offsets d) -> 0 <= x < 2 ^ 32.
Proof.
  unfold block_offsets. intros Hin.
  apply in_flat_map in Hin. destruct Hin as [i [_ Hin]].
  eapply region_offsets_range; [apply uint32_t_range | exact Hin].
Qed.

(** Shifting a 32-bit byte address down and up again does not leave the
    32-bit range, so [BLKADDR_TO_ADDR] truncates nothing there. *)
Lemma shift_down_up_down (sh a : Z) :
  0 <= a < 2 ^ 32 ->
  Z.shiftr (uint32_t (Z.shiftl (Z.shiftr a sh) sh)) sh = Z.shiftr a sh.
Proof.
  intros Ha. destruct (Z.le_gt_cases 0 sh) as [Hsh | Hsh].
  - assert (Hp : 0 < 2 ^ sh) by (apply Z.pow_pos_nonneg; lia).
    rewrite uint32_t_small.
    + rewrite Z.shiftr_shiftl_l by lia.
      rewrite Z.sub_diag. apply Z.shiftl_0_r.
    + rewrite Z.shiftl_mul_pow2, Z.shiftr_div_pow2 by lia.
      pose proof (Z.mul_div_le a (2 ^ sh) Hp) as Hle.
      pose proof (Z.div_pos a (2 ^ sh) ltac:(lia) Hp) as Hq.
      nia.
  - rewrite <- (Z.opp_involutive sh).
    set (k := - sh). assert (Hk : 0 < k) by (unfold k; lia).
    rewrite !Z.shiftr_opp_r, Z.shiftl_opp_r.
    rewrite Z.shiftr_shiftl_l by lia.
    rewrite Z.sub_diag, Z.shiftl_0_r.
    rewrite uint32_t_small by exact Ha. reflexivity.
Qed.

(** The block addresses that the geometry walk of [intel_rst_dev] and
    [intel_erase_dev] produces, when the walk's shift is at least
    [addr_shift]. *)
Lemma block_iterator_round_trip (P : platform) (d : dev_info_t) (b : Z) :
  0 <= dev_addr_shift d <= BYTE_OFFSET_FACTOR P (part_mode d) ->
  In b (block_iterator P d) ->
  ADDR_TO_BLKADDR d (BLKADDR_TO_ADDR d b) = b.
Proof.
  intros Hsh Hin. unfold block_iterator in Hin.
  apply in_map_iff in Hin. destruct Hin as [off [<- Hin]].
  apply block_offsets_range in Hin.
  set (k := BYTE_OFFSET_FACTOR P (part_mode d)) in *.
  set (sh := dev_addr_shift d) in *.
  unfold ADDR_TO_BLKADDR, BLKADDR_TO_ADDR. fold sh.
  assert (Hp : 0 < 2 ^ k) by (apply Z.pow_pos_nonneg; lia).
  assert (Hps : 0 < 2 ^ sh) by (apply Z.pow_pos_nonneg; lia).
  assert (Hle : 2 ^ sh <= 2 ^ k) by (apply Z.pow_le_mono_r; lia).
  rewrite uint32_t_small.
  - rewrite Z.shiftr_shiftl_l by lia. rewrite Z.sub_diag. apply Z.shiftl_0_r.
  - rewrite Z.shiftl_mul_pow2, Z.shiftr_div_pow2 by lia.
    pose proof (Z.mul_div_le off (2 ^ k) Hp) as Hm.
    pose proof (Z.div_pos off (2 ^ k) ltac:(lia) Hp) as Hq.
    nia.
Qed.

(** C6. For every block address of the geometry, converting it to a byte
    address with [BLKADDR_TO_ADDR] and back with [ADDR_TO_BLKADDR] yields the
    block address again: for the block address [ADDR_TO_BLKADDR] gives to the
    start of a geometry block, and for the block addresses the geometry walk
    of the driver hands to the block operations when the walk's shift
    ([BYTE_OFFSET_FACTOR], not among the sources) is at least
    [addr_shift]. *)
Theorem ADDR_TO_BLKADDR_BLKADDR_TO_ADDR :
  forall (P : platform) (d : dev_info_t) (b : Z),
    (blkaddr_in_geometry d b ->
     ADDR_TO_BLKADDR d (BLKADDR_TO_ADDR d b) = b) /\
    (0 <= dev_addr_shift d <= BYTE_OFFSET_FACTOR P (part_mode d) ->
     In b (block_iterator P d) ->
     ADDR_TO_BLKADDR d (BLKADDR_TO_ADDR d b) = b).
Proof.
  intros P d b. split.
  - intros [off [Hin ->]].
    unfold ADDR_TO_BLKADDR, BLKADDR_TO_ADDR.
    apply shift_down_up_down. eapply block_offsets_range. exact Hin.
  - apply block_iterator_round_trip.
Qed.

(** The third block of the demonstration geometry: byte offset 0x20000,
    block address 0x10000. *)
Lemma ADDR_TO_BLKADDR_BLKADDR_TO_ADDR_witness :
  blkaddr_in_geometry demo_devinfo 0x10000 /\
  In 0x10000 (block_iterator (demo_platform false ready_flash) demo_devinfo) /\
  ADDR_TO_BLKADDR demo_devinfo (BLKADDR_TO_ADDR demo_devinfo 0x10000) = 0x10000.
Proof.
  assert (H : blkaddr_in_geometry demo_devinfo 0x10000).
  { exists 0x20000. split; [simpl; tauto | reflexivity]. }
  assert (Hi : In 0x10000 (block_iterator (demo_platform false ready_flash)
                                          demo_devinfo)).
  { simpl. tauto. }
  destruct (ADDR_TO_BLKADDR_BLKADDR_TO_ADDR
              (demo_platform false ready_flash) demo_devinfo 0x10000)
    as [Hgeo Hwalk].
  split; [exact H | split; [exact Hi |]].
  apply Hwalk; [simpl; lia | exact Hi].
Defined.

(** Outside the geometry the round trip can fail: the shift left wraps at
    32 bits. *)
Example BLKADDR_TO_ADDR_wraps :
  ADDR_TO_BLKADDR demo_devinfo (BLKADDR_TO_ADDR demo_devinfo 0x80000000) = 0.
Proof. reflexivity. Qed.

(** ** Laws of the driver monad, pointwise *)

Lemma bind_eval {A B : Type} (m : M A) (k : A -> M B) (w : world) :
  bind m k w =
  match m w with
  | Ok a w' => k a w'
  | OutOfFuel => OutOfFuel
  | Undefined => Undefined
  end.
Proof. reflexivity. Qed.

Lemma bind_bind {A B C : Type} (m : M A) (k1 : A -> M B) (k2 : B -> M C)
      (w : world) :
  bind (bind m k1) k2 w = bind m (fun a => bind (k1 a) k2) w.
Proof. unfold bind. destruct (m w); reflexivity. Qed.

Lemma bind_ret {A B : Type} (a : A) (k : A -> M B) (w : world) :
  bind (ret a) k w = k a w.
Proof. reflexivity. Qed.

Lemma bind_static {A B : Type} (f : intel_statics -> A) (k : A -> M B)
      (w : world) :
  bind (static f) k w = k (f (statics w)) w.
Proof. reflexivity. Qed.

Lemma bind_emit {B : Type} (e : event) (k : unit -> M B) (w : world) :
  bind (emit e) k w = k tt (mk_world (statics w) (e :: bus w)).
Proof. reflexivity. Qed.

Lemma bind_Ok {A B : Type} (m : M A) (k : A -> M B) (w w' : world) (b : B) :
  bind m k w = Ok b w' ->
  exists a w1, m w = Ok a w1 /\ k a w1 = Ok b w'.
Proof.
  unfold bind. destruct (m w) as [a w1 | |]; try discriminate.
  intros H. exists a, w1. split; [reflexivity | exact H].
Qed.

(** ** The statics are a frame of every operation *)

Section Frame.

Variable P : platform.

Lemma frames_ret {A : Type} (a : A) : frames (ret a).
Proof. intros w. reflexivity. Qed.

Lemma frames_bind {A B : Type} (m : M A) (k : A -> M B) :
  frames m -> (forall a, frames (k a)) -> frames (bind m k).
Proof.
  intros Hm Hk w. unfold bind. specialize (Hm w).
  destruct (m w) as [a w1 | |]; simpl in *; trivial.
  specialize (Hk a w1). destruct (k a w1); simpl in *; trivial.
  congruence.
Qed.

Lemma frames_static {A : Type} (f : intel_statics -> A) : frames (static f).
Proof. intros w. reflexivity. Qed.

Lemma frames_emit (e : event) : frames (emit e).
Proof. intros w. reflexivity. Qed.

Lemma frames_fl_read (a : Z) : frames (fl_read P a).
Proof. intros w. reflexivity. Qed.

Lemma frames_out_of_fuel {A : Type} : frames (@out_of_fuel A).
Proof. intros w. exact I. Qed.

Lemma frames_undefined {A : Type} : frames (@undefined A).
Proof. intros w. exact I. Qed.

Create HintDb frame_db.

Hint Resolve frames_ret frames_static frames_emit frames_fl_read
  frames_out_of_fuel frames_undefined : frame_db.

Ltac frame_step :=
  match goal with
  | |- frames (bind _ _) => apply frames_bind; [| intro]
  | |- frames (if ?b then _ else _) => destruct b
  | |- frames (match ?x with Some _ => _ | None => _ end) => destruct x
  | |- frames _ => solve [auto with frame_db]
  end.

Ltac frame_auto := repeat frame_step.

Lemma frames_fl_cmdwrite (a c : Z) : frames (fl_cmdwrite a c).
Proof. unfold fl_cmdwrite. frame_auto. Qed.

Lemma frames_fl_write (a x : Z) : frames (fl_write a x).
Proof. unfold fl_write. frame_auto. Qed.

Lemma frames_intel_status_delay : frames intel_status_delay.
Proof. unfold intel_status_delay. frame_auto. Qed.

Hint Resolve frames_fl_cmdwrite frames_fl_write frames_intel_status_delay
  : frame_db.

Lemma frames_intel_clear_status : frames intel_clear_status.
Proof. unfold intel_clear_status. frame_auto. Qed.

Hint Resolve frames_intel_clear_status : frame_db.

Lemma frames_intel_rst_blk (b : Z) : frames (intel_rst_blk b).
Proof. unfold intel_rst_blk. frame_auto. Qed.

Lemma frames_fl_read_blk (b : Z) : frames (fl_read_blk P b).
Proof. unfold fl_read_blk. frame_auto. Qed.

Hint Resolve frames_intel_rst_blk frames_fl_read_blk : frame_db.

Lemma frames_while_busy (fuel : nat) (rd : M Z) :
  frames rd -> forall d, frames (while_busy fuel rd d).
Proof.
  intros Hrd. induction fuel as [| fuel IH]; intros d; simpl; frame_auto.
Qed.

Lemma frames_do_while_busy (fuel : nat) (rd : M Z) :
  frames rd -> frames (do_while_busy fuel rd).
Proof.
  intros Hrd. unfold do_while_busy. frame_auto.
  apply frames_while_busy. exact Hrd.
Qed.

Lemma frames_intel_read_status (b : Z) : frames (intel_read_status P b).
Proof. unfold intel_read_status. frame_auto. Qed.

Hint Resolve frames_intel_read_status : frame_db.

Lemma frames_intel_status_check (b : Z) : frames (intel_status_check P b).
Proof. unfold intel_status_check. frame_auto. Qed.

Hint Resolve frames_intel_status_check : frame_db.

Lemma frames_change_lock_spec (confirm : Z) (fuel : nat) (b : Z) :
  frames (change_lock_spec P confirm fuel b).
Proof.
  unfold change_lock_spec. frame_auto.
  apply frames_do_while_busy. auto with frame_db.
Qed.

Lemma frames_intel_lock_block (fuel : nat) (b : Z) :
  frames (intel_lock_block P fuel b).
Proof. exact (frames_change_lock_spec INTEL_SET_LOCK_BIT fuel b). Qed.

Lemma frames_intel_unlock_block (fuel : nat) (b : Z) :
  frames (intel_unlock_block P fuel b).
Proof. exact (frames_change_lock_spec INTEL_CLEAR_LOCK_BITS fuel b). Qed.

Hint Resolve frames_intel_lock_block frames_intel_unlock_block : frame_db.

Lemma frames_blk_erase_body (fuel : nat) (b : Z) :
  frames (blk_erase_body P fuel b).
Proof.
  unfold blk_erase_body. frame_auto.
  apply frames_while_busy. auto with frame_db.
Qed.

Hint Resolve frames_blk_erase_body : frame_db.

Lemma frames_intel_blk_erase_dev (fuel : nat) (b : Z) :
  frames (intel_blk_erase_dev P fuel b).
Proof. unfold intel_blk_erase_dev. frame_auto. Qed.

Hint Resolve frames_intel_blk_erase_dev : frame_db.

Lemma frames_rst_region_blks (i : Z) (todo : nat) :
  forall off, frames (rst_region_blks P i todo off).
Proof. induction todo as [| todo IH]; intros off; simpl; frame_auto. Qed.

Lemma frames_rst_regions (todo : nat) :
  forall i, frames (rst_regions P todo i).
Proof.
  induction todo as [| todo IH]; intros i; simpl; frame_auto.
  apply frames_rst_region_blks.
Qed.

Lemma frames_intel_rst_dev : frames (intel_rst_dev P).
Proof. unfold intel_rst_dev. frame_auto. apply frames_rst_regions. Qed.

Lemma frames_erase_region_blks (fuel : nat) (i : Z) (todo : nat) :
  forall off, frames (erase_region_blks P fuel i todo off).
Proof. induction todo as [| todo IH]; intros off; simpl; frame_auto. Qed.

Lemma frames_erase_regions (fuel : nat) (todo : nat) :
  forall i, frames (erase_regions P fuel todo i).
Proof.
  induction todo as [| todo IH]; intros i; simpl; frame_auto.
  apply frames_erase_region_blks.
Qed.

Lemma frames_intel_erase_dev (fuel : nat) : frames (intel_erase_dev P fuel).
Proof. unfold intel_erase_dev. frame_auto. apply frames_erase_regions. Qed.

Lemma frames_prog_loop (todo fuel : nat) :
  forall off srcaddr nbytes, frames (prog_loop P todo fuel off srcaddr nbytes).
Proof.
  induction todo as [| todo IH]; intros off srcaddr nbytes; simpl; frame_auto.
  apply frames_while_busy. auto with frame_db.
Qed.

Lemma frames_intel_prog_dev (fuel : nat) (off srcaddr nbytes : Z) :
  frames (intel_prog_dev P fuel off srcaddr nbytes).
Proof. unfold intel_prog_dev. frame_auto. apply frames_prog_loop. Qed.

End Frame.

(** C9. The context ([devinf], [addr_step], [addr_shift] and the seven status
    flags) is written by [intel_init_dev_params], which sets it from its
    argument; whatever reset, erase, block erase, program, lock, unlock,
    status read, status check, status clear or delay returns, the context is
    the one the operation started with. *)
Theorem statics_written_only_by_init :
  forall (P : platform) (w : world) (fuel : nat)
         (devinfo : dev_info_t) (blkaddr off srcaddr nbytes : Z),
    intel_init_dev_params P devinfo w =
      Ok tt (mk_world
               (mk_statics (uint32_t (fl_form_cmd P INTEL_READY))
                           (uint32_t (fl_form_cmd P INTEL_ERASE_SUSPEND))
                           (uint32_t (fl_form_cmd P INTEL_ERASE_ERRORS))
                           (uint32_t (fl_form_cmd P INTEL_PROGRAM_ERRORS))
                           (uint32_t (fl_form_cmd P INTEL_VOLTAGE_ERRORS))
                           (uint32_t (fl_form_cmd P INTEL_PROGRAM_SUSPEND))
                           (uint32_t (fl_form_cmd P INTEL_LOCKBIT_ERRORS))
                           devinfo
                           (uint8_t (dev_addr_step devinfo))
                           (uint8_t (dev_addr_shift devinfo)))
               (bus w)) /\
    keeps_statics w (intel_rst_dev P w) /\
    keeps_statics w (intel_rst_blk blkaddr w) /\
    keeps_statics w (intel_erase_dev P fuel w) /\
    keeps_statics w (intel_blk_erase_dev P fuel blkaddr w) /\
    keeps_statics w (intel_prog_dev P fuel off srcaddr nbytes w) /\
    keeps_statics w (intel_lock_block P fuel blkaddr w) /\
    keeps_statics w (intel_unlock_block P fuel blkaddr w) /\
    keeps_statics w (intel_status_check P blkaddr w) /\
    keeps_statics w (intel_read_status P blkaddr w) /\
    keeps_statics w (intel_clear_status w) /\
    keeps_statics w (intel_status_delay w).
Proof.
  intros P w fuel devinfo blkaddr off srcaddr nbytes.
  split; [reflexivity |].
  repeat match goal with |- _ /\ _ => split end.
  - apply frames_intel_rst_dev.
  - apply frames_intel_rst_blk.
  - apply frames_intel_erase_dev.
  - apply frames_intel_blk_erase_dev.
  - apply frames_intel_prog_dev.
  - apply frames_intel_lock_block.
  - apply frames_intel_unlock_block.
  - apply frames_intel_status_check.
  - apply frames_intel_read_status.
  - apply frames_intel_clear_status.
  - apply frames_intel_status_delay.
Qed.

(** ** Whole-device erase *)

Section EraseDevice.

Variable P : platform.
Variable fuel : nat.

(** Whatever [intel_blk_erase_dev] returns is an [int8_t] value. *)
Lemma intel_blk_erase_dev_int8 (b : Z) (w w' : world) (r : Z) :
  intel_blk_erase_dev P fuel b w = Ok r w' -> exists x, r = int8_t x.
Proof.
  assert (Hbody : forall w0, blk_erase_body P fuel b w0 = Ok r w' ->
                             exists x, r = int8_t x).
  { intros w0 H. unfold blk_erase_body in H.
    repeat (apply bind_Ok in H; destruct H as [? [? [_ H]]]).
    unfold ret in H. injection H as <- _. eexists. reflexivity. }
  unfold intel_blk_erase_dev.
  destruct (NO_INTEL_UNLOCK_BLOCKS P); [apply Hbody |].
  intros H. apply bind_Ok in H. destruct H as [st [w1 [_ H]]].
  destruct (negb (st =? 0)); [| eapply Hbody; exact H].
  unfold ret in H. injection H as <- _. eexists. reflexivity.
Qed.

Lemma erase_then_ret (blocks : list Z) :
  erase_then P fuel blocks (ret 0) = erase_each P fuel blocks.
Proof.
  induction blocks as [| b rest IH]; simpl; [reflexivity |].
  rewrite IH. reflexivity.
Qed.

Lemma erase_then_app (l1 l2 : list Z) (k : M Z) :
  erase_then P fuel (l1 ++ l2) k = erase_then P fuel l1 (erase_then P fuel l2 k).
Proof.
  induction l1 as [| b rest IH]; simpl; [reflexivity |].
  rewrite IH. reflexivity.
Qed.

(** Two continuations that agree on every world with the statics of [w]
    give the same erase from [w]. *)
Lemma erase_then_ext (blocks : list Z) (k1 k2 : M Z) :
  forall w,
    (forall w', statics w' = statics w -> k1 w' = k2 w') ->
    erase_then P fuel blocks k1 w = erase_then P fuel blocks k2 w.
Proof.
  induction blocks as [| b rest IH]; intros w Hk; simpl.
  - apply Hk. reflexivity.
  - unfold bind.
    pose proof (frames_intel_blk_erase_dev P fuel b w) as Hf.
    destruct (intel_blk_erase_dev P fuel b w) as [r w1 | |]; try reflexivity.
    simpl in Hf. destruct (r =? 0); [| reflexivity].
    apply IH. intros w' Hw'. apply Hk. congruence.
Qed.

(** The inner loop of [intel_erase_dev], followed by what the outer loop
    does with its result, erases the blocks of the region in turn. *)
Lemma erase_region_blks_then (i : Z) (k : M Z) (todo : nat) :
  forall off w,
    (early <- erase_region_blks P fuel i todo off ;;
     match early with
     | Some status => ret status
     | None => k
     end) w
    = erase_then P fuel
        (map (blkaddr_of_offset P (statics w))
             (region_offsets (blksiz (region_at (devinf (statics w)) i))
                             todo off))
        k w.
Proof.
  induction todo as [| todo IH]; intros off w; [reflexivity |].
  cbn [erase_region_blks region_offsets map erase_then].
  rewrite bind_bind, bind_static, bind_bind, !bind_eval.
  pose proof (frames_intel_blk_erase_dev P fuel
                (blkaddr_of_offset P (statics w) off) w) as Hf.
  destruct (intel_blk_erase_dev P fuel (blkaddr_of_offset P (statics w) off) w)
    as [r w1 | |] eqn:E; try reflexivity.
  simpl in Hf. apply intel_blk_erase_dev_int8 in E. destruct E as [x ->].
  rewrite int8_t_uint8_t_int8_t, uint8_t_int8_t.
  destruct (int8_t x =? 0) eqn:E0.
  - apply Z.eqb_eq in E0. apply int8_t_zero_iff in E0.
    rewrite E0. cbn [Z.eqb negb].
    rewrite bind_bind, bind_static, IH, Hf. reflexivity.
  - apply Z.eqb_neq in E0.
    assert (Hu : uint8_t x <> 0).
    { intros Hu. apply E0. apply int8_t_zero_iff. exact Hu. }
    apply Z.eqb_neq in Hu. rewrite Hu. reflexivity.
Qed.

(** The outer loop of [intel_erase_dev] from region [j] on. *)
Lemma erase_regions_each (todo : nat) :
  forall (j : nat) (w : world),
    erase_regions P fuel todo (Z.of_nat j) w
    = erase_each P fuel
        (map (blkaddr_of_offset P (statics w))
             (flat_map
                (fun i =>
                   let r := region_at (devinf (statics w)) i in
                   region_offsets (blksiz r) (Z.to_nat (nblks r))
                                  (uint32_t (offset r)))
                (map Z.of_nat (seq j todo))))
        w.
Proof.
  induction todo as [| todo IH]; intros j w; [reflexivity |].
  cbn [erase_regions seq map flat_map]. cbv zeta.
  rewrite bind_static, erase_region_blks_then.
  rewrite map_app, <- erase_then_ret, erase_then_app.
  apply erase_then_ext. intros w' Hw'.
  replace (Z.of_nat j + 1) with (Z.of_nat (S j)) by lia.
  rewrite IH, erase_then_ret, Hw'. reflexivity.
Qed.

End EraseDevice.

(** C4. [intel_erase_dev] is [erase_block] applied to each block address of
    the Block Iterator in iteration order, stopping at the first non-ready
    result and returning it, and returning ready when every erase did: the
    two are the same function of the world, whatever the geometry, the board
    and the fuel. *)
Theorem intel_erase_dev_refines_erase_each :
  forall (P : platform) (fuel : nat) (w : world),
    intel_erase_dev P fuel w = erase_device_spec P fuel w.
Proof.
  intros P fuel w. unfold intel_erase_dev, erase_device_spec.
  rewrite !bind_static.
  change 0 with (Z.of_nat 0) at 1.
  rewrite erase_regions_each. reflexivity.
Qed.

(** ** Busy-waits *)

Section Polling.

Variable P : platform.

Lemma issued_cons (s : intel_statics) (e : event) (h : list event) :
  issued (mk_world s (e :: h)) = issued (mk_world s h) ++ [e].
Proof. reflexivity. Qed.

Lemma issued_bus (w : world) : issued (mk_world (statics w) (bus w)) = issued w.
Proof. reflexivity. Qed.

Lemma fl_read_reads_at (s : intel_statics) (a : Z) :
  reads_at P (fl_read P a) s a.
Proof. intros w _. reflexivity. Qed.

Lemma fl_read_blk_reads_at (s : intel_statics) (b : Z) :
  reads_at P (fl_read_blk P b) s (BLKADDR_TO_ADDR (devinf s) b).
Proof. intros w <-. reflexivity. Qed.

(** A busy-wait that returns has read the address until the ready test
    passed, and has done nothing else. *)
Lemma while_busy_Ok (rd : M Z) (s : intel_statics) (a : Z) :
  reads_at P rd s a ->
  forall (fuel : nat) (d : Z) (w : world) (d' : Z) (w' : world),
    statics w = s ->
    while_busy fuel rd d w = Ok d' w' ->
    exists more,
      issued w' = issued w ++ map (EvRead a) more /\
      statics w' = s /\
      polled_until_ready (sr7flag s) (d :: more) = true.
Proof.
  intros Hrd. induction fuel as [| fuel IH]; intros d w d' w' Hs H.
  - simpl in H. rewrite bind_static, Hs in H.
    destruct (mask_set d (sr7flag s)) eqn:E; [| discriminate].
    unfold ret in H. injection H as _ <-. exists []. simpl.
    rewrite app_nil_r. auto.
  - simpl in H. rewrite bind_static, Hs in H.
    destruct (mask_set d (sr7flag s)) eqn:E.
    + unfold ret in H. injection H as _ <-. exists []. simpl.
      rewrite app_nil_r. auto.
    + rewrite bind_eval, (Hrd w Hs) in H. unfold fl_read in H.
      apply IH in H; [| exact Hs].
      destruct H as [more [Hi [Hs' Hp]]].
      exists (uint32_t (flash_read P (bus w) a) :: more).
      split; [| split; [exact Hs' |]].
      * rewrite Hi, issued_cons, issued_bus, <- app_assoc. reflexivity.
      * cbn [polled_until_ready] in *. rewrite E. exact Hp.
Qed.

(** A busy-wait returns when the data in hand is ready, or when the flash
    turns ready within fewer polls than there is fuel. *)
Lemma while_busy_returns (rd : M Z) (s : intel_statics) (a : Z) :
  reads_at P rd s a ->
  forall (fuel K : nat) (d : Z) (w : world),
    statics w = s ->
    mask_set d (sr7flag s) = true \/
    (ready_by P K (sr7flag s) a (bus w) = true /\ (K < fuel)%nat) ->
    exists d' w', while_busy fuel rd d w = Ok d' w'.
Proof.
  intros Hrd. induction fuel as [| fuel IH]; intros K d w Hs H.
  - simpl. rewrite bind_static, Hs.
    destruct H as [-> | [_ HK]]; [| lia]. eexists. eexists. reflexivity.
  - simpl. rewrite bind_static, Hs.
    destruct (mask_set d (sr7flag s)) eqn:E.
    + eexists. eexists. reflexivity.
    + destruct H as [H | [Hr HK]]; [discriminate |].
      rewrite bind_eval, (Hrd w Hs). unfold fl_read.
      destruct K as [| K]; simpl in Hr.
      * rewrite orb_false_r in Hr.
        apply (IH O); [exact Hs | left; exact Hr].
      * apply orb_true_iff in Hr. destruct Hr as [Hr | Hr].
        -- apply (IH O); [exact Hs | left; exact Hr].
        -- apply (IH K); [exact Hs | right; split; [exact Hr | lia]].
Qed.

(** The same for a first read followed by the loop. *)
Lemma read_then_while_busy_returns (rd : M Z) (s : intel_statics) (a : Z) :
  reads_at P rd s a ->
  forall (fuel K : nat) (w : world),
    statics w = s ->
    ready_by P K (sr7flag s) a (bus w) = true -> (K <= fuel)%nat ->
    exists d' w', (d <- rd ;; while_busy fuel rd d) w = Ok d' w'.
Proof.
  intros Hrd fuel K w Hs Hr HK.
  rewrite bind_eval, (Hrd w Hs). unfold fl_read.
  destruct K as [| K]; simpl in Hr.
  - rewrite orb_false_r in Hr.
    apply (while_busy_returns rd s a Hrd fuel O); [exact Hs | left; exact Hr].
  - apply orb_true_iff in Hr. destruct Hr as [Hr | Hr].
    + apply (while_busy_returns rd s a Hrd fuel O); [exact Hs | left; exact Hr].
    + apply (while_busy_returns rd s a Hrd fuel K);
        [exact Hs | right; split; [exact Hr | lia]].
Qed.

End Polling.

(** ** Bus traces of the block operations *)

Section Traces.

Variable P : platform.

Lemma bind_fl_read {B : Type} (a : Z) (k : Z -> M B) (w : world) :
  bind (fl_read P a) k w =
  k (uint32_t (flash_read P (bus w) a))
    (mk_world (statics w)
              (EvRead a (uint32_t (flash_read P (bus w) a)) :: bus w)).
Proof. reflexivity. Qed.

(** What [intel_rst_blk] does to a world. *)
Lemma intel_rst_blk_eq (b : Z) (w : world) :
  intel_rst_blk b w =
  Ok tt (mk_world (statics w)
                  (EvDelay :: EvCmdWrite b INTEL_READ_ARRAY
                     :: EvCmdWrite 0 INTEL_CLEAR_STATUS :: bus w)).
Proof. reflexivity. Qed.

Lemma change_lock_spec_trace (confirm : Z) (fuel : nat) (b : Z)
      (w w' : world) (r : Z) :
  change_lock_spec P confirm fuel b w = Ok r w' ->
  exists polls st,
    issued w' =
      issued w
      ++ [EvCmdWrite b INTEL_CHANGE_LOCK; EvCmdWrite b confirm; EvDelay]
      ++ map (EvRead (BLKADDR_TO_ADDR (devinf (statics w)) b)) polls
      ++ [EvDelay; EvCmdWrite b INTEL_READ_STATUS;
          EvRead (BLKADDR_TO_ADDR (devinf (statics w)) b) st;
          EvCmdWrite 0 INTEL_CLEAR_STATUS; EvCmdWrite b INTEL_READ_ARRAY;
          EvDelay] /\
    polled_until_ready (sr7flag (statics w)) polls = true /\
    r = uint8_t (status_value P (intel_status_decode (statics w) st)) /\
    statics w' = statics w.
Proof.
  intros H.
  unfold change_lock_spec, do_while_busy, fl_cmdwrite, intel_status_delay in H.
  rewrite !bind_emit, bind_bind in H.
  unfold fl_read_blk at 1 in H.
  rewrite bind_bind, bind_static, bind_fl_read in H.
  apply bind_Ok in H. destruct H as [d' [w1 [Hpoll H]]].
  apply (while_busy_Ok P _ (statics w) _ (fl_read_blk_reads_at P _ b)) in Hpoll;
    [| reflexivity].
  destruct Hpoll as [more [Hi [Hs Hp]]].
  rewrite bind_emit, bind_eval, intel_status_check_eq in H. cbv zeta in H.
  rewrite bind_eval, intel_rst_blk_eq in H.
  unfold ret in H. injection H as <- <-.
  cbn [statics bus] in *. rewrite Hs.
  eexists. eexists. split; [| split; [exact Hp | split; [| reflexivity]]].
  - unfold issued in *. cbn [bus rev] in *.
    rewrite Hi, <- !app_assoc. cbn [app map]. reflexivity.
  - rewrite uint8_t_idem. reflexivity.
Qed.

Lemma blk_erase_body_trace (fuel : nat) (b : Z) (w w' : world) (r : Z) :
  blk_erase_body P fuel b w = Ok r w' ->
  exists polls st,
    issued w' =
      issued w
      ++ [EvCmdWrite b INTEL_BLOCK_ERASE; EvCmdWrite b INTEL_CONFIRM; EvDelay]
      ++ map (EvRead (BLKADDR_TO_ADDR (devinf (statics w)) b)) polls
      ++ [EvCmdWrite b INTEL_READ_STATUS;
          EvRead (BLKADDR_TO_ADDR (devinf (statics w)) b) st;
          EvCmdWrite 0 INTEL_CLEAR_STATUS; EvCmdWrite b INTEL_READ_ARRAY;
          EvDelay] /\
    polled_until_ready (sr7flag (statics w)) polls = true /\
    r = int8_t (status_value P (intel_status_decode (statics w) st)) /\
    statics w' = statics w.
Proof.
  intros H.
  unfold blk_erase_body, fl_cmdwrite, intel_status_delay in H.
  rewrite !bind_emit in H.
  unfold fl_read_blk at 1 in H.
  rewrite bind_bind, bind_static, bind_fl_read in H.
  apply bind_Ok in H. destruct H as [d' [w1 [Hpoll H]]].
  apply (while_busy_Ok P _ (statics w) _ (fl_read_blk_reads_at P _ b)) in Hpoll;
    [| reflexivity].
  destruct Hpoll as [more [Hi [Hs Hp]]].
  rewrite bind_eval, intel_status_check_eq in H. cbv zeta in H.
  rewrite bind_eval, intel_rst_blk_eq in H.
  unfold ret in H. injection H as <- <-.
  cbn [statics bus] in *. rewrite Hs.
  eexists. eexists. split; [| split; [exact Hp | split; [| reflexivity]]].
  - unfold issued in *. cbn [bus rev] in *.
    rewrite Hi, <- !app_assoc. cbn [app map]. reflexivity.
  - unfold int8_t. cbv zeta. fold (uint8_t (uint8_t (status_value P
      (intel_status_decode (statics w)
         (uint32_t (flash_read P (EvCmdWrite b INTEL_READ_STATUS :: bus w1)
                      (BLKADDR_TO_ADDR (devinf (statics w)) b))))))).
    rewrite uint8_t_idem. reflexivity.
Qed.

(** Both return when the flash turns ready within the fuel. *)
Lemma change_lock_spec_returns (confirm : Z) (fuel K : nat) (b : Z) (w : world) :
  (forall h a, ready_by P K (sr7flag (statics w)) a h = true) ->
  (K <= fuel)%nat ->
  exists r w', change_lock_spec P confirm fuel b w = Ok r w'.
Proof.
  intros Hready HK.
  unfold change_lock_spec, do_while_busy, fl_cmdwrite, intel_status_delay.
  rewrite !bind_emit. cbn [statics bus].
  destruct (read_then_while_busy_returns P _ (statics w) _
              (fl_read_blk_reads_at P _ b) fuel K
              (mk_world (statics w)
                 (EvDelay :: EvCmdWrite b confirm
                    :: EvCmdWrite b INTEL_CHANGE_LOCK :: bus w))
              eq_refl (Hready _ _) HK) as [d' [w1 Hpoll]].
  rewrite (bind_eval (d <- fl_read_blk P b ;; while_busy fuel (fl_read_blk P b) d)).
  rewrite Hpoll.
  rewrite bind_emit, bind_eval, intel_status_check_eq. cbv zeta.
  rewrite bind_eval, intel_rst_blk_eq. eexists. eexists. reflexivity.
Qed.

Lemma blk_erase_body_returns (fuel K : nat) (b : Z) (w : world) :
  (forall h a, ready_by P K (sr7flag (statics w)) a h = true) ->
  (K <= fuel)%nat ->
  exists r w', blk_erase_body P fuel b w = Ok r w'.
Proof.
  intros Hready HK.
  unfold blk_erase_body, fl_cmdwrite, intel_status_delay.
  rewrite !bind_emit. cbn [statics bus].
  destruct (read_then_while_busy_returns P _ (statics w) _
              (fl_read_blk_reads_at P _ b) fuel K
              (mk_world (statics w)
                 (EvDelay :: EvCmdWrite b INTEL_CONFIRM
                    :: EvCmdWrite b INTEL_BLOCK_ERASE :: bus w))
              eq_refl (Hready _ _) HK) as [d' [w1 Hpoll]].
  rewrite <- bind_bind.
  rewrite (bind_eval (d <- fl_read_blk P b ;; while_busy fuel (fl_read_blk P b) d)).
  rewrite Hpoll.
  rewrite bind_eval, intel_status_check_eq. cbv zeta.
  rewrite bind_eval, intel_rst_blk_eq. eexists. eexists. reflexivity.
Qed.

Lemma intel_blk_erase_dev_returns (fuel K : nat) (b : Z) (w : world) :
  (forall h a, ready_by P K (sr7flag (statics w)) a h = true) ->
  (K <= fuel)%nat ->
  exists r w', intel_blk_erase_dev P fuel b w = Ok r w'.
Proof.
  intros Hready HK. unfold intel_blk_erase_dev.
  destruct (NO_INTEL_UNLOCK_BLOCKS P).
  - apply (blk_erase_body_returns fuel K); assumption.
  - destruct (change_lock_spec_returns INTEL_CLEAR_LOCK_BITS fuel K b w Hready HK)
      as [st [w1 Hu]].
    change (change_lock_spec P INTEL_CLEAR_LOCK_BITS fuel b)
      with (intel_unlock_block P fuel b) in Hu.
    rewrite bind_eval, Hu.
    destruct (negb (st =? 0)).
    + eexists. eexists. reflexivity.
    + apply (blk_erase_body_returns fuel K); [| exact HK].
      pose proof (frames_intel_unlock_block P fuel b w) as Hf.
      rewrite Hu in Hf. simpl in Hf. rewrite Hf. exact Hready.
Qed.

(** Block erase, lock and unlock end with the reset of the block on every
    path that returns, whatever the decoded result. *)
Lemma change_lock_spec_resets (confirm : Z) (fuel : nat) (b : Z)
      (w w' : world) (r : Z) :
  change_lock_spec P confirm fuel b w = Ok r w' -> ends_with_reset b w'.
Proof.
  intros H. apply change_lock_spec_trace in H.
  destruct H as [polls [st [Hi _]]]. unfold ends_with_reset. rewrite Hi.
  exists (issued w
          ++ [EvCmdWrite b INTEL_CHANGE_LOCK; EvCmdWrite b confirm; EvDelay]
          ++ map (EvRead (BLKADDR_TO_ADDR (devinf (statics w)) b)) polls
          ++ [EvDelay; EvCmdWrite b INTEL_READ_STATUS;
              EvRead (BLKADDR_TO_ADDR (devinf (statics w)) b) st]).
  rewrite <- !app_assoc. reflexivity.
Qed.

Lemma blk_erase_body_resets (fuel : nat) (b : Z) (w w' : world) (r : Z) :
  blk_erase_body P fuel b w = Ok r w' -> ends_with_reset b w'.
Proof.
  intros H. apply blk_erase_body_trace in H.
  destruct H as [polls [st [Hi _]]]. unfold ends_with_reset. rewrite Hi.
  exists (issued w
          ++ [EvCmdWrite b INTEL_BLOCK_ERASE; EvCmdWrite b INTEL_CONFIRM; EvDelay]
          ++ map (EvRead (BLKADDR_TO_ADDR (devinf (statics w)) b)) polls
          ++ [EvCmdWrite b INTEL_READ_STATUS;
              EvRead (BLKADDR_TO_ADDR (devinf (statics w)) b) st]).
  rewrite <- !app_assoc. reflexivity.
Qed.

Lemma intel_blk_erase_dev_resets (fuel : nat) (b : Z) (w w' : world) (r : Z) :
  intel_blk_erase_dev P fuel b w = Ok r w' -> ends_with_reset b w'.
Proof.
  unfold intel_blk_erase_dev.
  destruct (NO_INTEL_UNLOCK_BLOCKS P); [apply blk_erase_body_resets |].
  intros H. apply bind_Ok in H. destruct H as [st [w1 [Hu H]]].
  destruct (negb (st =? 0)).
  - unfold ret in H. injection H as _ <-.
    eapply (change_lock_spec_resets INTEL_CLEAR_LOCK_BITS). exact Hu.
  - eapply blk_erase_body_resets. exact H.
Qed.

End Traces.

(** ** Lock and unlock *)

(** C8. [intel_lock_block] and [intel_unlock_block] are one sequence run with
    the confirm byte 0x01 (set lock bit) and 0xd0 (clear lock bits).  The
    sequence puts on the bus the change-lock command and the confirm byte at
    the block, a settle delay, the reads of the busy-wait up to the first
    ready word, a second delay, the read-status command and the status read,
    and the reset of the block; it returns the decoded status.  The confirm
    byte occurs once, as the second command. *)
Theorem intel_lock_unlock_symmetric :
  forall (P : platform) (fuel : nat) (blkaddr : Z),
    intel_lock_block P fuel blkaddr =
      change_lock_spec P INTEL_SET_LOCK_BIT fuel blkaddr /\
    intel_unlock_block P fuel blkaddr =
      change_lock_spec P INTEL_CLEAR_LOCK_BITS fuel blkaddr /\
    INTEL_SET_LOCK_BIT = 0x01 /\ INTEL_CLEAR_LOCK_BITS = 0xd0 /\
    (forall confirm w r w',
        change_lock_spec P confirm fuel blkaddr w = Ok r w' ->
        exists polls st,
          issued w' =
            issued w
            ++ [EvCmdWrite blkaddr INTEL_CHANGE_LOCK;
                EvCmdWrite blkaddr confirm; EvDelay]
            ++ map (EvRead (BLKADDR_TO_ADDR (devinf (statics w)) blkaddr)) polls
            ++ [EvDelay; EvCmdWrite blkaddr INTEL_READ_STATUS;
                EvRead (BLKADDR_TO_ADDR (devinf (statics w)) blkaddr) st;
                EvCmdWrite 0 INTEL_CLEAR_STATUS;
                EvCmdWrite blkaddr INTEL_READ_ARRAY; EvDelay] /\
          polled_until_ready (sr7flag (statics w)) polls = true /\
          r = uint8_t (status_value P (intel_status_decode (statics w) st))) /\
    (forall confirm K w,
        (forall h a, ready_by P K (sr7flag (statics w)) a h = true) ->
        (K <= fuel)%nat ->
        exists r w', change_lock_spec P confirm fuel blkaddr w = Ok r w').
Proof.
  intros P fuel blkaddr.
  split; [reflexivity |]. split; [reflexivity |].
  split; [reflexivity |]. split; [reflexivity |]. split.
  - intros confirm w r w' H. apply change_lock_spec_trace in H.
    destruct H as [polls [st [Hi [Hp [Hr _]]]]]. exists polls, st. auto.
  - intros confirm K w Hready HK.
    apply (change_lock_spec_returns P confirm fuel K); assumption.
Qed.

(** Locking and unlocking block 2 of the demonstration board on a flash that
    is busy for one poll: the two logs differ in the confirm byte only. *)
Lemma intel_lock_unlock_symmetric_witness :
  (exists w',
      intel_lock_block (demo_platform false (slow_flash 1)) 3 2 demo_world
        = Ok 0 w' /\
      issued w' =
        [EvCmdWrite 2 INTEL_CHANGE_LOCK; EvCmdWrite 2 INTEL_SET_LOCK_BIT;
         EvDelay; EvRead 4 0; EvRead 4 INTEL_READY; EvDelay;
         EvCmdWrite 2 INTEL_READ_STATUS; EvRead 4 INTEL_READY;
         EvCmdWrite 0 INTEL_CLEAR_STATUS; EvCmdWrite 2 INTEL_READ_ARRAY;
         EvDelay]) /\
  (exists w',
      intel_unlock_block (demo_platform false (slow_flash 1)) 3 2 demo_world
        = Ok 0 w' /\
      issued w' =
        [EvCmdWrite 2 INTEL_CHANGE_LOCK; EvCmdWrite 2 INTEL_CLEAR_LOCK_BITS;
         EvDelay; EvRead 4 0; EvRead 4 INTEL_READY; EvDelay;
         EvCmdWrite 2 INTEL_READ_STATUS; EvRead 4 INTEL_READY;
         EvCmdWrite 0 INTEL_CLEAR_STATUS; EvCmdWrite 2 INTEL_READ_ARRAY;
         EvDelay]).
Proof.
  destruct (intel_lock_unlock_symmetric
              (demo_platform false (slow_flash 1)) 3 2)
    as [Hl [Hu [_ [_ [_ Hret]]]]].
  assert (Hready : forall h a,
             ready_by (demo_platform false (slow_flash 1)) 1
                      (sr7flag (statics demo_world)) a h = true).
  { intros h a. unfold slow_flash. simpl.
    destruct (reads_so_far h); reflexivity. }
  rewrite Hl, Hu. split.
  - destruct (Hret INTEL_SET_LOCK_BIT 1%nat demo_world Hready ltac:(lia))
      as [r [w' H]].
    exists w'. vm_compute in H. injection H as <- <-. split; reflexivity.
  - destruct (Hret INTEL_CLEAR_LOCK_BITS 1%nat demo_world Hready ltac:(lia))
      as [r [w' H]].
    exists w'. vm_compute in H. injection H as <- <-. split; reflexivity.
Defined.

(** ** Erasing one block of the demonstration geometry *)

(** C7, as the code has it.  With the geometry of one region at offset 0 with
    4 blocks of 0x10000 bytes, [addr_step] 2 and [addr_shift] 1, a block
    erase of block address 2 that returns has done one of two things.
    Either the unlock that precedes the erase (unless
    [NO_INTEL_UNLOCK_BLOCKS] is defined) decoded an error: then the call
    returned that error and the bus saw the unlock sequence only.  Or it
    issued, after the unlock if there is one, the erase command and the
    confirm byte at command address 2, read byte address 4 until the ready
    mask was set, read the status at byte address 4 after a read-status
    command at 2, reset block 2, and returned the decoded status.  The call
    returns whenever the flash turns ready within the fuel. *)
Theorem intel_blk_erase_dev_block_2 :
  forall (P : platform) (fuel : nat) (w : world),
    devinf (statics w) = demo_devinfo ->
    (forall r w',
        intel_blk_erase_dev P fuel 2 w = Ok r w' ->
        (NO_INTEL_UNLOCK_BLOCKS P = false /\
         exists st polls stw,
           st <> 0 /\ r = int8_t st /\
           intel_unlock_block P fuel 2 w = Ok st w' /\
           issued w' =
             issued w
             ++ [EvCmdWrite 2 INTEL_CHANGE_LOCK;
                 EvCmdWrite 2 INTEL_CLEAR_LOCK_BITS; EvDelay]
             ++ map (EvRead 4) polls
             ++ [EvDelay; EvCmdWrite 2 INTEL_READ_STATUS; EvRead 4 stw;
                 EvCmdWrite 0 INTEL_CLEAR_STATUS;
                 EvCmdWrite 2 INTEL_READ_ARRAY; EvDelay])
        \/
        (exists w0 polls stw,
            ((NO_INTEL_UNLOCK_BLOCKS P = true /\ w0 = w) \/
             (NO_INTEL_UNLOCK_BLOCKS P = false /\
              intel_unlock_block P fuel 2 w = Ok 0 w0)) /\
            issued w' =
              issued w0
              ++ [EvCmdWrite 2 INTEL_BLOCK_ERASE;
                  EvCmdWrite 2 INTEL_CONFIRM; EvDelay]
              ++ map (EvRead 4) polls
              ++ [EvCmdWrite 2 INTEL_READ_STATUS; EvRead 4 stw;
                  EvCmdWrite 0 INTEL_CLEAR_STATUS;
                  EvCmdWrite 2 INTEL_READ_ARRAY; EvDelay] /\
            polled_until_ready (sr7flag (statics w)) polls = true /\
            r = int8_t (status_value P
                          (intel_status_decode (statics w) stw))))
    /\
    (forall K : nat,
        (forall h a, ready_by P K (sr7flag (statics w)) a h = true) ->
        (K <= fuel)%nat ->
        exists r w', intel_blk_erase_dev P fuel 2 w = Ok r w').
Proof.
  intros P fuel w Hgeo. split.
  - intros r w' H. unfold intel_blk_erase_dev in H.
    assert (Ha : forall s, devinf s = demo_devinfo ->
                           BLKADDR_TO_ADDR (devinf s) 2 = 4).
    { intros s ->. reflexivity. }
    destruct (NO_INTEL_UNLOCK_BLOCKS P) eqn:Hno.
    + right. apply blk_erase_body_trace in H.
      destruct H as [polls [stw [Hi [Hp [Hr _]]]]].
      rewrite (Ha _ Hgeo) in Hi.
      exists w, polls, stw. auto.
    + apply bind_Ok in H. destruct H as [st [w0 [Hu H]]].
      pose proof (frames_intel_unlock_block P fuel 2 w) as Hf.
      rewrite Hu in Hf. simpl in Hf.
      destruct (st =? 0) eqn:Est; cbn [negb] in H.
      * right. apply Z.eqb_eq in Est. subst st.
        apply blk_erase_body_trace in H.
        destruct H as [polls [stw [Hi [Hp [Hr _]]]]].
        rewrite Hf in *. rewrite (Ha _ Hgeo) in Hi.
        exists w0, polls, stw. auto.
      * left. apply Z.eqb_neq in Est.
        unfold ret in H. injection H as <- <-.
        pose proof Hu as Ht.
        apply (change_lock_spec_trace P INTEL_CLEAR_LOCK_BITS) in Ht.
        destruct Ht as [polls [stw [Hi _]]].
        rewrite (Ha _ Hgeo) in Hi.
        split; [reflexivity |]. exists st, polls, stw. auto.
  - intros K Hready HK. apply (intel_blk_erase_dev_returns P fuel K); assumption.
Qed.

(** The scenario on a board without the unlock step whose flash is busy for
    two polls: the call returns ready and the bus saw exactly the erase
    sequence of the second case. *)
Lemma intel_blk_erase_dev_block_2_witness :
  devinf (statics demo_world) = demo_devinfo /\
  exists r w',
    intel_blk_erase_dev (demo_platform true (slow_flash 2)) 5 2 demo_world
      = Ok r w' /\
    r = 0 /\
    issued w' =
      [EvCmdWrite 2 INTEL_BLOCK_ERASE; EvCmdWrite 2 INTEL_CONFIRM; EvDelay;
       EvRead 4 0; EvRead 4 0; EvRead 4 INTEL_READY;
       EvCmdWrite 2 INTEL_READ_STATUS; EvRead 4 INTEL_READY;
       EvCmdWrite 0 INTEL_CLEAR_STATUS; EvCmdWrite 2 INTEL_READ_ARRAY;
       EvDelay].
Proof.
  split; [reflexivity |].
  destruct (intel_blk_erase_dev_block_2
              (demo_platform true (slow_flash 2)) 5 demo_world eq_refl)
    as [_ Hret].
  destruct (Hret 2%nat) as [r [w' H]].
  - intros h a. unfold slow_flash. simpl.
    destruct (reads_so_far h) as [| [| n]]; reflexivity.
  - lia.
  - exists r, w'. split; [exact H |].
    vm_compute in H. injection H as <- <-. split; reflexivity.
Defined.

(** C7 as stated fails when the unlock is compiled in and the block stays
    locked: the flash reports the lock-bit error, block erase returns the
    lock error, and no erase command was issued. *)
Lemma intel_blk_erase_dev_unlock_fails :
  exists w',
    intel_blk_erase_dev (demo_platform false (failing_flash INTEL_LOCKBIT_ERRORS))
                        5 2 demo_world = Ok 5 w' /\
    issued w' =
      [EvCmdWrite 2 INTEL_CHANGE_LOCK; EvCmdWrite 2 INTEL_CLEAR_LOCK_BITS;
       EvDelay; EvRead 4 0x82; EvDelay; EvCmdWrite 2 INTEL_READ_STATUS;
       EvRead 4 0x82; EvCmdWrite 0 INTEL_CLEAR_STATUS;
       EvCmdWrite 2 INTEL_READ_ARRAY; EvDelay] /\
    ~ In (EvCmdWrite 2 INTEL_BLOCK_ERASE) (issued w').
Proof.
  eexists. split; [vm_compute; reflexivity |].
  split; [reflexivity |].
  simpl. intros H.
  repeat (destruct H as [H | H]; [discriminate |]). exact H.
Qed.

(** ** Programming *)

Lemma units_written_app (l1 l2 : list event) :
  units_written (l1 ++ l2) = units_written l1 + units_written l2.
Proof.
  induction l1 as [| e l1 IH]; cbn [app units_written]; [reflexivity |].
  destruct e; rewrite IH; lia.
Qed.

Lemma units_written_reads (a : Z) (l : list Z) :
  units_written (map (EvRead a) l) = 0.
Proof. induction l as [| d l IH]; simpl; [reflexivity | exact IH]. Qed.

(** The alignment rounds up to the next multiple of [step] when that fits in
    32 bits. *)
Lemma align_nbytes_ceil (step n : Z) :
  0 < step -> 0 <= n -> ceil_div n step * step < 2 ^ 32 ->
  align_nbytes step n = ceil_div n step * step.
Proof.
  intros Hstep Hn Hfit. unfold align_nbytes, ceil_div in *.
  pose proof (Z.div_mod n step ltac:(lia)) as Hdm.
  pose proof (Z.mod_pos_bound n step Hstep) as Hr.
  pose proof (Z.div_pos n step Hn Hstep) as Hq.
  set (q := n / step) in *. set (r := n mod step) in *.
  destruct (r =? 0) eqn:E; cbn [negb].
  - apply Z.eqb_eq in E.
    assert (Hc : (n + step - 1) / step = q).
    { symmetry. apply (Z.div_unique_pos _ _ q (step - 1)); lia. }
    rewrite Hc. lia.
  - apply Z.eqb_neq in E.
    assert (Hc : (n + step - 1) / step = q + 1).
    { symmetry. apply (Z.div_unique_pos _ _ (q + 1) (r - 1)); lia. }
    rewrite Hc in *. rewrite uint32_t_small; lia.
Qed.

(** The loop counter steps down through the multiples of [step] without
    wrapping. *)
Lemma nbytes_step_down (step m : Z) :
  0 < step -> 0 < m -> m * step < 2 ^ 32 ->
  uint32_t (m * step - step) = (m - 1) * step.
Proof. intros Hs Hm Hfit. rewrite uint32_t_small; nia. Qed.

Section Program.

Variable P : platform.
Variable fuel : nat.

(** One turn of the [while (nbytes)] loop. *)
Lemma prog_loop_S (todo : nat) (off srcaddr nbytes : Z) (w : world) :
  prog_loop P (S todo) fuel off srcaddr nbytes w =
  if nbytes =? 0 then Ok 0 w
  else
    (status <- prog_unit P fuel off srcaddr ;;
     if negb (status =? 0) then
       blk <- static (fun s => ADDR_TO_BLKADDR (devinf s) off) ;;
       intel_rst_blk blk ;;
       ret (int8_t status)
     else
       step <- static addr_step ;;
       prog_loop P todo fuel (uint32_t (off + step)) (srcaddr + step)
                 (uint32_t (nbytes - step))) w.
Proof.
  cbn [prog_loop]. destruct (nbytes =? 0); [reflexivity |].
  unfold prog_unit, fl_cmdwrite, fl_write, intel_status_delay.
  unfold bind, static, emit, fl_read. cbn [statics bus].
  destruct (while_busy fuel _ _ _) as [d' w1 | |]; try reflexivity.
  rewrite intel_status_check_eq. cbv zeta.
  destruct (negb _); reflexivity.
Qed.

(** A programming unit that returns has written one unit, kept the statics
    and produced a [uint8_t] status. *)
Lemma prog_unit_Ok (off srcaddr : Z) (w w' : world) (st : Z) :
  prog_unit P fuel off srcaddr w = Ok st w' ->
  statics w' = statics w /\
  units_written (issued w') = units_written (issued w) + 1 /\
  uint8_t st = st /\
  exists k, st = uint8_t (status_value P k).
Proof.
  intros H.
  unfold prog_unit, fl_cmdwrite, fl_write, intel_status_delay in H.
  rewrite bind_static, !bind_emit, bind_fl_read in H. cbn [statics bus] in H.
  apply bind_Ok in H. destruct H as [d' [w1 [Hpoll H]]].
  apply (while_busy_Ok P _ (statics w) off (fl_read_reads_at P _ off)) in Hpoll;
    [| reflexivity].
  destruct Hpoll as [more [Hi [Hs _]]].
  rewrite bind_static, intel_status_check_eq in H. cbv zeta in H.
  injection H as <- <-. cbn [statics]. split; [exact Hs | split; [| split]].
  - unfold issued in *. cbn [bus rev] in *. rewrite Hi.
    rewrite !units_written_app, units_written_reads.
    cbn [units_written]. lia.
  - apply uint8_t_idem.
  - eexists. reflexivity.
Qed.

(** On a flash that turns ready within the fuel and reports no error, a
    programming unit returns the ready code. *)
Lemma prog_unit_returns (K : nat) (off srcaddr : Z) (w : world) :
  (forall h a, ready_by P K (sr7flag (statics w)) a h = true) ->
  status_reads_clean P (statics w) ->
  (K <= fuel)%nat ->
  exists w', prog_unit P fuel off srcaddr w = Ok 0 w'.
Proof.
  intros Hready Hclean HK.
  unfold prog_unit, fl_cmdwrite, fl_write, intel_status_delay.
  rewrite bind_static, !bind_emit. cbn [statics bus].
  destruct (read_then_while_busy_returns P _ (statics w) off
              (fl_read_reads_at P _ off) fuel K
              (mk_world (statics w)
                 (EvDelay :: EvWrite off (mem_read P srcaddr)
                    :: EvCmdWrite (Z.shiftr off (addr_shift (statics w)))
                         INTEL_PROGRAM_WORD :: bus w))
              eq_refl (Hready _ _) HK) as [d' [w1 Hpoll]].
  rewrite <- bind_bind.
  rewrite (bind_eval (d <- fl_read P off ;; while_busy fuel (fl_read P off) d)).
  rewrite Hpoll, bind_static, intel_status_check_eq. cbv zeta.
  assert (Hs : statics w1 = statics w).
  { apply bind_Ok in Hpoll. destruct Hpoll as [d0 [w0 [Hrd Hwb]]].
    unfold fl_read in Hrd. injection Hrd as <- <-.
    apply (while_busy_Ok P _ (statics w) off (fl_read_reads_at P _ off)) in Hwb;
      [| reflexivity].
    destruct Hwb as [more [_ [Hs _]]]. exact Hs. }
  rewrite Hs, Hclean. eexists. reflexivity.
Qed.

(** A run of the loop over [m] units that returns the ready code has
    written exactly [m] units. *)
Lemma prog_loop_units (todo : nat) :
  forall (m off srcaddr : Z) (w w' : world),
    0 < addr_step (statics w) -> 0 <= m ->
    m * addr_step (statics w) < 2 ^ 32 ->
    prog_loop P todo fuel off srcaddr (m * addr_step (statics w)) w = Ok 0 w' ->
    units_written (issued w') = units_written (issued w) + m.
Proof.
  induction todo as [| todo IH]; intros m off srcaddr w w' Hstep Hm Hfit H.
  - cbn [prog_loop] in H.
    destruct (m * addr_step (statics w) =? 0) eqn:E; [| discriminate].
    apply Z.eqb_eq in E. unfold ret in H. injection H as <-. nia.
  - rewrite prog_loop_S in H.
    destruct (m * addr_step (statics w) =? 0) eqn:E.
    + apply Z.eqb_eq in E. injection H as <-. nia.
    + apply Z.eqb_neq in E.
      apply bind_Ok in H. destruct H as [st [w1 [Hu H]]].
      apply prog_unit_Ok in Hu. destruct Hu as [Hs [Hunits [Hst _]]].
      destruct (st =? 0) eqn:Est; cbn [negb] in H.
      * rewrite bind_static, Hs in H.
        rewrite nbytes_step_down in H by nia.
        rewrite <- Hs in H. apply IH in H; rewrite ?Hs; nia.
      * exfalso. apply Z.eqb_neq in Est.
        rewrite bind_static, bind_eval, intel_rst_blk_eq in H.
        unfold ret in H. injection H as H0 _.
        apply int8_t_zero_iff in H0. congruence.
Qed.

(** On a flash that turns ready within the fuel and reports no error, the
    loop over [m] units returns the ready code within [m] turns. *)
Lemma prog_loop_returns (K : nat) (todo : nat) :
  forall (m off srcaddr : Z) (w : world),
    (forall h a, ready_by P K (sr7flag (statics w)) a h = true) ->
    status_reads_clean P (statics w) ->
    (K <= fuel)%nat ->
    0 < addr_step (statics w) -> 0 <= m <= Z.of_nat todo ->
    m * addr_step (statics w) < 2 ^ 32 ->
    exists w', prog_loop P todo fuel off srcaddr (m * addr_step (statics w)) w
               = Ok 0 w'.
Proof.
  induction todo as [| todo IH];
    intros m off srcaddr w Hready Hclean HK Hstep Hm Hfit.
  - assert (m = 0) by lia. subst m. cbn [prog_loop]. rewrite Z.mul_0_l.
    eexists. reflexivity.
  - rewrite prog_loop_S.
    destruct (m * addr_step (statics w) =? 0) eqn:E;
      [eexists; reflexivity |].
    apply Z.eqb_neq in E.
    destruct (prog_unit_returns K off srcaddr w Hready Hclean HK) as [w1 Hu].
    rewrite bind_eval, Hu. cbn [Z.eqb negb].
    apply prog_unit_Ok in Hu. destruct Hu as [Hs _].
    rewrite bind_static, Hs, nbytes_step_down by nia.
    rewrite <- Hs. apply IH; rewrite ?Hs; try assumption; nia.
Qed.

End Program.

Lemma ceil_div_above (step n : Z) :
  0 < step -> 0 <= n -> n mod step <> 0 -> n < ceil_div n step * step.
Proof.
  intros Hstep Hn Hmod. unfold ceil_div.
  pose proof (Z.div_mod n step ltac:(lia)) as Hdm.
  pose proof (Z.mod_pos_bound n step Hstep) as Hr.
  assert (Hc : (n + step - 1) / step = n / step + 1).
  { symmetry.
    apply (Z.div_unique_pos _ _ (n / step + 1) (n mod step - 1)); lia. }
  rewrite Hc. lia.
Qed.

(** [intel_prog_dev] resets the target block, aligns the byte count and
    enters the loop. *)
Lemma intel_prog_dev_eq (P : platform) (fuel : nat) (off srcaddr nbytes : Z)
      (w : world) :
  addr_step (statics w) <> 0 ->
  intel_prog_dev P fuel off srcaddr nbytes w =
  prog_loop P fuel fuel off srcaddr
            (align_nbytes (addr_step (statics w)) nbytes)
            (mk_world (statics w)
               (EvDelay
                  :: EvCmdWrite (ADDR_TO_BLKADDR (devinf (statics w)) off)
                       INTEL_READ_ARRAY
                  :: EvCmdWrite 0 INTEL_CLEAR_STATUS :: bus w)).
Proof.
  intros Hstep. unfold intel_prog_dev.
  rewrite bind_static, bind_eval, intel_rst_blk_eq, bind_static.
  cbn [statics]. apply Z.eqb_neq in Hstep. rewrite Hstep. reflexivity.
Qed.

(** With [addr_step] 0 the alignment divides by zero. *)
Lemma intel_prog_dev_zero_step (P : platform) (fuel : nat)
      (off srcaddr nbytes : Z) (w : world) :
  addr_step (statics w) = 0 ->
  intel_prog_dev P fuel off srcaddr nbytes w = Undefined.
Proof.
  intros Hstep. unfold intel_prog_dev.
  rewrite bind_static, bind_eval, intel_rst_blk_eq, bind_static.
  cbn [statics]. rewrite Hstep. reflexivity.
Qed.

(** C5, as the code has it.  When [addr_step] is positive, [n] is not a
    multiple of it and the rounded count fits in 32 bits, the byte count is
    rounded up to [ceil (n / addr_step) * addr_step], which is more than [n],
    before programming, and a call that returns ready has written exactly
    [ceil (n / addr_step)] programming units. *)
Theorem intel_prog_dev_rounds_up :
  forall (P : platform) (fuel : nat) (off srcaddr n : Z) (w w' : world),
    0 < addr_step (statics w) ->
    0 <= n ->
    n mod addr_step (statics w) <> 0 ->
    ceil_div n (addr_step (statics w)) * addr_step (statics w) < 2 ^ 32 ->
    intel_prog_dev P fuel off srcaddr n w = Ok 0 w' ->
    align_nbytes (addr_step (statics w)) n
      = ceil_div n (addr_step (statics w)) * addr_step (statics w) /\
    n < ceil_div n (addr_step (statics w)) * addr_step (statics w) /\
    units_written (issued w')
      = units_written (issued w) + ceil_div n (addr_step (statics w)).
Proof.
  intros P fuel off srcaddr n w w' Hstep Hn Hmod Hfit H.
  pose proof (align_nbytes_ceil _ _ Hstep Hn Hfit) as Ha.
  split; [exact Ha | split].
  - apply ceil_div_above; assumption.
  - rewrite intel_prog_dev_eq in H by lia. rewrite Ha in H.
    match type of H with
    | prog_loop _ _ _ _ _ _ ?x = _ => set (w0 := x) in H
    end.
    change (addr_step (statics w)) with (addr_step (statics w0)) in H.
    apply prog_loop_units in H.
    + rewrite H. unfold issued, w0. cbn [statics bus rev].
      rewrite !units_written_app. cbn [units_written]. lia.
    + exact Hstep.
    + unfold ceil_div, w0. cbn [statics]. apply Z.div_pos; lia.
    + exact Hfit.
Qed.

(** Five bytes at [addr_step] 2 on a flash that is always ready: three
    programming units. *)
Lemma intel_prog_dev_rounds_up_witness :
  exists w',
    intel_prog_dev (demo_platform false ready_flash) 3 0 100 5 demo_world
      = Ok 0 w' /\
    align_nbytes 2 5 = 6 /\
    units_written (issued w') = 3.
Proof.
  eexists. split; [vm_compute; reflexivity |].
  match goal with
  | |- _ /\ units_written (issued ?x) = _ =>
      destruct (intel_prog_dev_rounds_up
                  (demo_platform false ready_flash) 3 0 100 5 demo_world x)
        as [Ha [_ Hu]]
  end.
  - reflexivity.
  - discriminate.
  - discriminate.
  - reflexivity.
  - reflexivity.
  - split; [exact Ha | exact Hu].
Defined.

(** C5 as stated fails in two ways.  A byte count within [addr_step] of
    2^32 wraps to 0 when it is rounded up: no unit is written, where the
    claim has 2^31.  And a unit that decodes an error ends the call: one unit
    is written of the three the claim has for 5 bytes. *)
Lemma intel_prog_dev_fewer_units :
  (exists w',
      intel_prog_dev (demo_platform false ready_flash) 3 0 100 (2 ^ 32 - 1)
                     demo_world = Ok 0 w' /\
      units_written (issued w') = 0 /\
      align_nbytes 2 (2 ^ 32 - 1) = 0 /\
      ceil_div (2 ^ 32 - 1) 2 = 2 ^ 31) /\
  (exists w',
      intel_prog_dev (demo_platform false (failing_flash INTEL_PROGRAM_ERRORS))
                     3 0 100 5 demo_world = Ok 3 w' /\
      units_written (issued w') = 1 /\
      ceil_div 5 2 = 3).
Proof.
  split.
  - eexists. split; [vm_compute; reflexivity |]. repeat split.
  - eexists. split; [vm_compute; reflexivity |]. repeat split.
Qed.

(** C10, as the code has it.  For a positive [addr_step] and a byte count
    whose rounded-up value fits in 32 bits, the alignment makes the counter
    an exact multiple of [addr_step], the counter steps down through the
    multiples without wrapping, and on a flash that turns ready within the
    fuel and whose status reads decode to ready the call returns ready after
    exactly [ceil (n / addr_step)] turns of the loop, one programming unit
    each. *)
Theorem intel_prog_dev_terminates :
  forall (P : platform) (fuel K : nat) (off srcaddr n : Z) (w : world),
    0 < addr_step (statics w) ->
    0 <= n ->
    ceil_div n (addr_step (statics w)) * addr_step (statics w) < 2 ^ 32 ->
    (forall h a, ready_by P K (sr7flag (statics w)) a h = true) ->
    status_reads_clean P (statics w) ->
    (K <= fuel)%nat ->
    ceil_div n (addr_step (statics w)) <= Z.of_nat fuel ->
    align_nbytes (addr_step (statics w)) n
      = ceil_div n (addr_step (statics w)) * addr_step (statics w) /\
    (forall m, 0 < m <= ceil_div n (addr_step (statics w)) ->
               uint32_t (m * addr_step (statics w) - addr_step (statics w))
               = (m - 1) * addr_step (statics w)) /\
    exists w',
      intel_prog_dev P fuel off srcaddr n w = Ok 0 w' /\
      units_written (issued w')
        = units_written (issued w) + ceil_div n (addr_step (statics w)).
Proof.
  intros P fuel K off srcaddr n w Hstep Hn Hfit Hready Hclean HK Hfuel.
  pose proof (align_nbytes_ceil _ _ Hstep Hn Hfit) as Ha.
  assert (Hc : 0 <= ceil_div n (addr_step (statics w))).
  { unfold ceil_div. apply Z.div_pos; lia. }
  split; [exact Ha | split].
  - intros m Hm. apply nbytes_step_down; nia.
  - rewrite intel_prog_dev_eq by lia. rewrite Ha.
    set (w0 := mk_world (statics w) _).
    change (addr_step (statics w)) with (addr_step (statics w0)).
    destruct (prog_loop_returns P fuel K fuel
                (ceil_div n (addr_step (statics w0))) off srcaddr w0)
      as [w' Hw']; try assumption.
    + split; assumption.
    + exists w'. split; [exact Hw' |].
      apply prog_loop_units in Hw'; try assumption.
      rewrite Hw'. unfold issued, w0. cbn [statics bus rev].
      rewrite !units_written_app. cbn [units_written]. lia.
Qed.

(** Seven bytes at [addr_step] 2 on a flash that is always ready: four turns
    of the loop. *)
Lemma intel_prog_dev_terminates_witness :
  align_nbytes 2 7 = 8 /\
  exists w',
    intel_prog_dev (demo_platform false ready_flash) 4 0 100 7 demo_world
      = Ok 0 w' /\
    units_written (issued w') = 4.
Proof.
  destruct (intel_prog_dev_terminates
              (demo_platform false ready_flash) 4 0 0 100 7 demo_world)
    as [Ha [_ Hrun]].
  - reflexivity.
  - discriminate.
  - reflexivity.
  - intros h a. reflexivity.
  - intros h cmdaddr a. reflexivity.
  - lia.
  - discriminate.
  - split; [exact Ha | exact Hrun].
Defined.

(** C10 as stated fails for byte counts near 2^32.  With [addr_step] 6 the
    alignment of 2^32 - 1 wraps to 2, which is no multiple of 6, and the
    first decrement wraps to 2^32 - 4.  With [addr_step] 4 the alignment of
    2^32 - 2 wraps to 0 and the loop makes no turn, where
    [ceil (n / addr_step)] is 2^30. *)
Lemma intel_prog_dev_alignment_wraps :
  (align_nbytes 6 (2 ^ 32 - 1) = 2 /\ 2 mod 6 <> 0 /\
   uint32_t (align_nbytes 6 (2 ^ 32 - 1) - 6) = 2 ^ 32 - 4) /\
  (exists w',
      intel_prog_dev (demo_platform false ready_flash) 3 0 100 (2 ^ 32 - 2)
        (mk_world
           (mk_statics INTEL_READY INTEL_ERASE_SUSPEND INTEL_ERASE_ERRORS
                       INTEL_PROGRAM_ERRORS INTEL_VOLTAGE_ERRORS
                       INTEL_PROGRAM_SUSPEND INTEL_LOCKBIT_ERRORS
                       (mk_dev_info 4 2 2 (mk_geometry 1 [mk_region 0 4 0x10000]))
                       4 2)
           [])
      = Ok 0 w' /\
      units_written (issued w') = 0 /\
      ceil_div (2 ^ 32 - 2) 4 = 2 ^ 30).
Proof.
  split.
  - repeat split. discriminate.
  - eexists. split; [vm_compute; reflexivity |]. repeat split.
Qed.

(** ** Reset after an operation *)

(** C2, on the code: a program call that succeeds does not end with the
    reset of the block.  Programming one unit at offset 0 on a flash that is
    always ready returns ready, and the last bus activity is the read-status
    command and the status read of the status check. *)
Theorem intel_prog_dev_success_no_reset :
  exists w',
    intel_prog_dev (demo_platform false ready_flash) 1 0 100 2 demo_world
      = Ok 0 w' /\
    issued w' =
      [EvCmdWrite 0 INTEL_CLEAR_STATUS; EvCmdWrite 0 INTEL_READ_ARRAY; EvDelay;
       EvCmdWrite 0 INTEL_PROGRAM_WORD; EvWrite 0 100; EvDelay;
       EvRead 0 INTEL_READY;
       EvCmdWrite 0 INTEL_READ_STATUS; EvRead 0 INTEL_READY] /\
    ~ ends_with_reset 0 w'.
Proof.
  eexists. split; [vm_compute; reflexivity |].
  split; [reflexivity |].
  intros [h Hh]. apply (f_equal (@rev event)) in Hh.
  rewrite rev_app_distr in Hh. simpl in Hh. discriminate.
Qed.

(** Block erase, lock and unlock do end with the reset on every path, and so
    does a program call that returns an error. *)
Lemma block_operations_reset (P : platform) (fuel : nat) (b : Z)
      (w w' : world) (r : Z) :
  (intel_blk_erase_dev P fuel b w = Ok r w' -> ends_with_reset b w') /\
  (intel_lock_block P fuel b w = Ok r w' -> ends_with_reset b w') /\
  (intel_unlock_block P fuel b w = Ok r w' -> ends_with_reset b w').
Proof.
  split; [apply intel_blk_erase_dev_resets | split].
  - apply (change_lock_spec_resets P INTEL_SET_LOCK_BIT).
  - apply (change_lock_spec_resets P INTEL_CLEAR_LOCK_BITS).
Qed.

Lemma prog_loop_error_resets (P : platform) (fuel : nat) (todo : nat) :
  forall (off srcaddr nbytes : Z) (w w' : world) (r : Z),
    prog_loop P todo fuel off srcaddr nbytes w = Ok r w' ->
    r <> 0 ->
    exists blk, ends_with_reset blk w'.
Proof.
  induction todo as [| todo IH]; intros off srcaddr nbytes w w' r H Hr.
  - cbn [prog_loop] in H. destruct (nbytes =? 0); [| discriminate].
    unfold ret in H. injection H as <- _. contradiction.
  - rewrite prog_loop_S in H. destruct (nbytes =? 0).
    + injection H as <- _. contradiction.
    + apply bind_Ok in H. destruct H as [st [w1 [_ H]]].
      destruct (negb (st =? 0)).
      * rewrite bind_static, bind_eval, intel_rst_blk_eq in H.
        unfold ret in H. injection H as _ <-.
        exists (ADDR_TO_BLKADDR (devinf (statics w1)) off).
        exists (issued w1). unfold issued. cbn [bus rev].
        rewrite <- !app_assoc. reflexivity.
      * rewrite bind_static in H. eapply IH; eassumption.
Qed.

(** ** What the operations return *)

Lemma int8_t_uint8_t (z : Z) : int8_t (uint8_t z) = int8_t z.
Proof.
  unfold int8_t. cbv zeta. fold (uint8_t (uint8_t z)). fold (uint8_t z).
  rewrite uint8_t_idem. reflexivity.
Qed.

Section Results.

Variable P : platform.
Variable fuel : nat.

Lemma change_lock_spec_kind (confirm b : Z) (w w' : world) (r : Z) :
  change_lock_spec P confirm fuel b w = Ok r w' ->
  exists k, r = uint8_t (status_value P k).
Proof.
  intros H. apply change_lock_spec_trace in H.
  destruct H as [polls [st [_ [_ [Hr _]]]]]. eexists. exact Hr.
Qed.

Lemma intel_blk_erase_dev_kind (b : Z) (w w' : world) (r : Z) :
  intel_blk_erase_dev P fuel b w = Ok r w' ->
  exists k, r = int8_t (status_value P k).
Proof.
  unfold intel_blk_erase_dev. intros H.
  assert (Hbody : forall w0, blk_erase_body P fuel b w0 = Ok r w' ->
                             exists k, r = int8_t (status_value P k)).
  { intros w0 H0. apply blk_erase_body_trace in H0.
    destruct H0 as [polls [st [_ [_ [Hr _]]]]]. eexists. exact Hr. }
  destruct (NO_INTEL_UNLOCK_BLOCKS P); [eapply Hbody; exact H |].
  apply bind_Ok in H. destruct H as [st [w1 [Hu H]]].
  destruct (negb (st =? 0)); [| eapply Hbody; exact H].
  unfold ret in H. injection H as <- _.
  apply (change_lock_spec_kind INTEL_CLEAR_LOCK_BITS) in Hu.
  destruct Hu as [k ->]. exists k. apply int8_t_uint8_t.
Qed.

Lemma erase_each_kind (blocks : list Z) :
  forall (w w' : world) (r : Z),
    erase_each P fuel blocks w = Ok r w' ->
    exists k, r = int8_t (status_value P k).
Proof.
  induction blocks as [| b rest IH]; intros w w' r H; cbn [erase_each] in H.
  - unfold ret in H. injection H as <- _.
    exists INTEL_STATUS_READY. reflexivity.
  - apply bind_Ok in H. destruct H as [r1 [w1 [Hb H]]].
    destruct (r1 =? 0); [eapply IH; exact H |].
    unfold ret in H. injection H as <- _.
    eapply intel_blk_erase_dev_kind. exact Hb.
Qed.

Lemma intel_erase_dev_kind (w w' : world) (r : Z) :
  intel_erase_dev P fuel w = Ok r w' ->
  exists k, r = int8_t (status_value P k).
Proof.
  unfold intel_erase_dev. rewrite bind_static.
  change 0 with (Z.of_nat 0) at 1. rewrite erase_regions_each.
  apply erase_each_kind.
Qed.

Lemma prog_loop_kind (todo : nat) :
  forall (off srcaddr nbytes : Z) (w w' : world) (r : Z),
    prog_loop P todo fuel off srcaddr nbytes w = Ok r w' ->
    exists k, r = int8_t (status_value P k).
Proof.
  induction todo as [| todo IH]; intros off srcaddr nbytes w w' r H.
  - cbn [prog_loop] in H. destruct (nbytes =? 0); [| discriminate].
    unfold ret in H. injection H as <- _.
    exists INTEL_STATUS_READY. reflexivity.
  - rewrite prog_loop_S in H. destruct (nbytes =? 0).
    + injection H as <- _. exists INTEL_STATUS_READY. reflexivity.
    + apply bind_Ok in H. destruct H as [st [w1 [Hu H]]].
      apply prog_unit_Ok in Hu. destruct Hu as [_ [_ [_ [k Hk]]]].
      destruct (negb (st =? 0)).
      * rewrite bind_static, bind_eval, intel_rst_blk_eq in H.
        unfold ret in H. injection H as <- _.
        exists k. rewrite Hk. apply int8_t_uint8_t.
      * rewrite bind_static in H. eapply IH. exact H.
Qed.

Lemma intel_prog_dev_kind (off srcaddr nbytes : Z) (w w' : world) (r : Z) :
  intel_prog_dev P fuel off srcaddr nbytes w = Ok r w' ->
  exists k, r = int8_t (status_value P k).
Proof.
  intros H. destruct (Z.eq_dec (addr_step (statics w)) 0) as [Hz | Hnz].
  - rewrite intel_prog_dev_zero_step in H by exact Hz. discriminate.
  - rewrite intel_prog_dev_eq in H by exact Hnz.
    eapply prog_loop_kind. exact H.
Qed.

End Results.

(** C3, as the code has it.  The decoded kind is one of the six kinds the
    file defines (the five of the claim and the voltage error); a status word
    decodes to one kind only; a word with the voltage-error mask set and the
    erase-error mask clear is reported as a program error; and what lock,
    unlock, block erase, device erase and program return is the value of one
    of the six kinds, as a [uint8_t] or an [int8_t]. *)
Theorem intel_status_decode_kinds :
  forall (P : platform) (s : intel_statics) (status : Z),
    In (intel_status_decode s status)
       [INTEL_STATUS_READY; INTEL_STATUS_CMDSEQ_ERR; INTEL_STATUS_ERASE_ERR;
        INTEL_STATUS_PROG_ERR; INTEL_STATUS_VOLTAGE_ERR; INTEL_STATUS_LOCK_ERR]
    /\ (forall k k', intel_status_decode s status = k ->
                     intel_status_decode s status = k' -> k = k')
    /\ (mask_set status (sr5flag s) = false ->
        mask_set status (sr3flag s) = true ->
        intel_status_decode s status = INTEL_STATUS_PROG_ERR)
    /\ (forall fuel b off srcaddr nbytes w w' r,
           (intel_lock_block P fuel b w = Ok r w' ->
            exists k, r = uint8_t (status_value P k)) /\
           (intel_unlock_block P fuel b w = Ok r w' ->
            exists k, r = uint8_t (status_value P k)) /\
           (intel_blk_erase_dev P fuel b w = Ok r w' ->
            exists k, r = int8_t (status_value P k)) /\
           (intel_erase_dev P fuel w = Ok r w' ->
            exists k, r = int8_t (status_value P k)) /\
           (intel_prog_dev P fuel off srcaddr nbytes w = Ok r w' ->
            exists k, r = int8_t (status_value P k))).
Proof.
  intros P s status. split; [| split; [| split]].
  - destruct (intel_status_decode s status); simpl; tauto.
  - intros k k' Hk Hk'. congruence.
  - intros H5 H3. unfold intel_status_decode. rewrite H5, H3.
    destruct (mask_set status (sr4flag s)); reflexivity.
  - intros fuel b off srcaddr nbytes w w' r.
    split; [apply (change_lock_spec_kind P fuel INTEL_SET_LOCK_BIT) |].
    split; [apply (change_lock_spec_kind P fuel INTEL_CLEAR_LOCK_BITS) |].
    split; [apply intel_blk_erase_dev_kind |].
    split; [apply intel_erase_dev_kind | apply intel_prog_dev_kind].
Qed.

(** A voltage-error status word on the demonstration board. *)
Lemma intel_status_decode_kinds_witness :
  In (intel_status_decode demo_statics INTEL_VOLTAGE_ERRORS)
     [INTEL_STATUS_READY; INTEL_STATUS_CMDSEQ_ERR; INTEL_STATUS_ERASE_ERR;
      INTEL_STATUS_PROG_ERR; INTEL_STATUS_VOLTAGE_ERR; INTEL_STATUS_LOCK_ERR]
  /\ intel_status_decode demo_statics INTEL_VOLTAGE_ERRORS = INTEL_STATUS_PROG_ERR.
Proof.
  pose proof (intel_status_decode_kinds (demo_platform false ready_flash)
                demo_statics INTEL_VOLTAGE_ERRORS)
    as [Hin [_ [Hv _]]].
  split; [exact Hin | apply Hv; reflexivity].
Defined.

(** C3 as stated fails: with one part on the bus, the status word 0x04 (the
    program-suspend bit alone) decodes to the voltage error, which is none of
    the five kinds of the claim; a lock of block 2 on a flash that answers
    "ready, program suspended" returns the voltage error code. *)
Lemma intel_status_decode_sixth_kind :
  intel_status_decode demo_statics INTEL_PROGRAM_SUSPEND = INTEL_STATUS_VOLTAGE_ERR
  /\ ~ (forall (s : intel_statics) (status : Z),
           In (intel_status_decode s status)
              [INTEL_STATUS_READY; INTEL_STATUS_CMDSEQ_ERR;
               INTEL_STATUS_ERASE_ERR; INTEL_STATUS_PROG_ERR;
               INTEL_STATUS_LOCK_ERR])
  /\ exists w',
       intel_lock_block
         (demo_platform false (failing_flash INTEL_PROGRAM_SUSPEND)) 1 2
         demo_world
       = Ok (ERR_FLASH_VOLTAGE
               (demo_platform false (failing_flash INTEL_PROGRAM_SUSPEND))) w'.
Proof.
  split; [reflexivity | split].
  - intros H. specialize (H demo_statics INTEL_PROGRAM_SUSPEND).
    simpl in H. intuition discriminate.
  - eexists. vm_compute. reflexivity.
Qed.

(** * Further properties of intel.c *)

(** ** Whole-device reset *)

Section ResetDevice.

Variable P : platform.

Lemma rst_region_blks_eq (i : Z) (todo : nat) :
  forall (off : Z) (w : world),
    rst_region_blks P i todo off w =
    Ok tt (mk_world (statics w)
             (rev (flat_map reset_events
                     (map (blkaddr_of_offset P (statics w))
                          (region_offsets
                             (blksiz (region_at (devinf (statics w)) i))
                             todo off)))
              ++ bus w)).
Proof.
  induction todo as [| todo IH]; intros off w.
  - destruct w. reflexivity.
  - cbn [rst_region_blks].
    rewrite bind_static, bind_eval, intel_rst_blk_eq, bind_static.
    cbn [statics]. rewrite IH. cbn [statics bus region_offsets map flat_map].
    rewrite rev_app_distr, <- app_assoc. reflexivity.
Qed.

Lemma rst_regions_eq (todo : nat) :
  forall (j : nat) (w : world),
    rst_regions P todo (Z.of_nat j) w =
    Ok tt (mk_world (statics w)
             (rev (flat_map reset_events
                     (map (blkaddr_of_offset P (statics w))
                          (flat_map
                             (fun i =>
                                let r := region_at (devinf (statics w)) i in
                                region_offsets (blksiz r) (Z.to_nat (nblks r))
                                               (uint32_t (offset r)))
                             (map Z.of_nat (seq j todo)))))
              ++ bus w)).
Proof.
  induction todo as [| todo IH]; intros j w.
  - destruct w. reflexivity.
  - cbn [rst_regions seq map flat_map]. cbv zeta.
    rewrite bind_static, bind_eval, rst_region_blks_eq.
    replace (Z.of_nat j + 1) with (Z.of_nat (S j)) by lia.
    rewrite IH. cbn [statics bus].
    rewrite map_app, flat_map_app, rev_app_distr, <- app_assoc. reflexivity.
Qed.

End ResetDevice.

(** X1. [intel_rst_dev] always returns, and what it puts on the bus is the
    reset of each block address of the geometry walk, in walk order: for each
    one the clear-status command at command address 0, the read-array command
    at the block, and the settle delay.  A geometry without blocks gives no
    bus activity. *)
Theorem intel_rst_dev_resets_each_block :
  forall (P : platform) (w : world),
    exists w',
      intel_rst_dev P w = Ok tt w' /\
      statics w' = statics w /\
      issued w' =
        issued w
        ++ flat_map reset_events (block_iterator P (devinf (statics w))).
Proof.
  intros P w. unfold intel_rst_dev. rewrite bind_static.
  change 0 with (Z.of_nat 0) at 1. rewrite rst_regions_eq.
  eexists. split; [reflexivity |]. split; [reflexivity |].
  unfold issued. cbn [bus]. rewrite rev_app_distr, rev_involutive.
  reflexivity.
Qed.

(** ** Observations on logs *)

Lemma erased_blocks_app (l1 l2 : list event) :
  erased_blocks (l1 ++ l2) = erased_blocks l1 ++ erased_blocks l2.
Proof.
  induction l1 as [| e l1 IH]; cbn [app erased_blocks]; [reflexivity |].
  destruct e; try exact IH.
  destruct (cmddata =? INTEL_BLOCK_ERASE); cbn [app]; rewrite IH; reflexivity.
Qed.

Lemma erased_blocks_reads (a : Z) (l : list Z) :
  erased_blocks (map (EvRead a) l) = [].
Proof. induction l as [| d l IH]; [reflexivity | exact IH]. Qed.

Lemma data_writes_app (l1 l2 : list event) :
  data_writes (l1 ++ l2) = data_writes l1 ++ data_writes l2.
Proof.
  induction l1 as [| e l1 IH]; cbn [app data_writes]; [reflexivity |].
  destruct e; cbn [app]; rewrite IH; reflexivity.
Qed.

Lemma data_writes_reads (a : Z) (l : list Z) :
  data_writes (map (EvRead a) l) = [].
Proof. induction l as [| d l IH]; [reflexivity | exact IH]. Qed.

Lemma data_writes_resets (l : list Z) :
  data_writes (flat_map reset_events l) = [].
Proof. induction l as [| b l IH]; [reflexivity | exact IH]. Qed.

Lemma last_read_app (l1 l2 : list event) :
  last_read (l1 ++ l2) =
  match last_read l2 with
  | Some d => Some d
  | None => last_read l1
  end.
Proof.
  induction l1 as [| e l1 IH]; cbn [app last_read].
  - destruct (last_read l2); reflexivity.
  - destruct e; try exact IH.
    rewrite IH. destruct (last_read l2); reflexivity.
Qed.

(** ** Erase, lock, unlock and reset leave the array alone *)

Section NoDataWrite.

Variable P : platform.
Variable fuel : nat.

Lemma change_lock_spec_no_write (confirm b : Z) (w w' : world) (r : Z) :
  change_lock_spec P confirm fuel b w = Ok r w' ->
  data_writes (issued w') = data_writes (issued w).
Proof.
  intros H. apply change_lock_spec_trace in H.
  destruct H as [polls [st [Hi _]]]. rewrite Hi.
  rewrite !data_writes_app, data_writes_reads. cbn [data_writes app].
  rewrite app_nil_r. reflexivity.
Qed.

Lemma blk_erase_body_no_write (b : Z) (w w' : world) (r : Z) :
  blk_erase_body P fuel b w = Ok r w' ->
  data_writes (issued w') = data_writes (issued w).
Proof.
  intros H. apply blk_erase_body_trace in H.
  destruct H as [polls [st [Hi _]]]. rewrite Hi.
  rewrite !data_writes_app, data_writes_reads. cbn [data_writes app].
  rewrite app_nil_r. reflexivity.
Qed.

Lemma intel_blk_erase_dev_no_write (b : Z) (w w' : world) (r : Z) :
  intel_blk_erase_dev P fuel b w = Ok r w' ->
  data_writes (issued w') = data_writes (issued w).
Proof.
  unfold intel_blk_erase_dev.
  destruct (NO_INTEL_UNLOCK_BLOCKS P); [apply blk_erase_body_no_write |].
  intros H. apply bind_Ok in H. destruct H as [st [w1 [Hu H]]].
  apply (change_lock_spec_no_write INTEL_CLEAR_LOCK_BITS) in Hu.
  destruct (negb (st =? 0)).
  - unfold ret in H. injection H as _ <-. exact Hu.
  - apply blk_erase_body_no_write in H. congruence.
Qed.

Lemma erase_each_no_write (blocks : list Z) :
  forall (w w' : world) (r : Z),
    erase_each P fuel blocks w = Ok r w' ->
    data_writes (issued w') = data_writes (issued w).
Proof.
  induction blocks as [| b rest IH]; intros w w' r H; cbn [erase_each] in H.
  - unfold ret in H. injection H as _ <-. reflexivity.
  - apply bind_Ok in H. destruct H as [r1 [w1 [Hb H]]].
    apply intel_blk_erase_dev_no_write in Hb.
    destruct (r1 =? 0).
    + apply IH in H. congruence.
    + unfold ret in H. injection H as _ <-. exact Hb.
Qed.

End NoDataWrite.

(** X3. Reset, erase, lock, unlock and the status check put no data write on
    the bus: whenever one of them returns, the data writes of the log are
    those it started with.  Only programming writes data. *)
Theorem only_program_writes_data :
  forall (P : platform) (fuel : nat) (b : Z) (w w' : world),
    (forall u, intel_rst_blk b w = Ok u w' ->
               data_writes (issued w') = data_writes (issued w)) /\
    (forall u, intel_rst_dev P w = Ok u w' ->
               data_writes (issued w') = data_writes (issued w)) /\
    (forall r, intel_status_check P b w = Ok r w' ->
               data_writes (issued w') = data_writes (issued w)) /\
    (forall r, intel_lock_block P fuel b w = Ok r w' ->
               data_writes (issued w') = data_writes (issued w)) /\
    (forall r, intel_unlock_block P fuel b w = Ok r w' ->
               data_writes (issued w') = data_writes (issued w)) /\
    (forall r, intel_blk_erase_dev P fuel b w = Ok r w' ->
               data_writes (issued w') = data_writes (issued w)) /\
    (forall r, intel_erase_dev P fuel w = Ok r w' ->
               data_writes (issued w') = data_writes (issued w)).
Proof.
  intros P fuel b w w'.
  repeat match goal with |- _ /\ _ => split end.
  - intros u H. rewrite intel_rst_blk_eq in H. injection H as _ <-.
    unfold issued. cbn [bus rev]. rewrite !data_writes_app.
    cbn [data_writes]. rewrite !app_nil_r. reflexivity.
  - intros u H.
    unfold intel_rst_dev in H. rewrite bind_static in H.
    change 0 with (Z.of_nat 0) in H at 1. rewrite rst_regions_eq in H.
    injection H as _ <-. unfold issued. cbn [bus].
    rewrite rev_app_distr, rev_involutive, data_writes_app, data_writes_resets.
    apply app_nil_r.
  - intros r H. rewrite intel_status_check_eq in H. cbv zeta in H.
    injection H as _ <-. unfold issued. cbn [bus rev].
    rewrite !data_writes_app. cbn [data_writes]. rewrite !app_nil_r.
    reflexivity.
  - apply (change_lock_spec_no_write P fuel INTEL_SET_LOCK_BIT).
  - apply (change_lock_spec_no_write P fuel INTEL_CLEAR_LOCK_BITS).
  - apply intel_blk_erase_dev_no_write.
  - intros r H. unfold intel_erase_dev in H. rewrite bind_static in H.
    change 0 with (Z.of_nat 0) in H at 1. rewrite erase_regions_each in H.
    eapply erase_each_no_write. exact H.
Qed.

(** An unlock and a block erase of block 2 of the demonstration board, whose
    log started with one data write. *)
Lemma only_program_writes_data_witness :
  exists w',
    intel_blk_erase_dev (demo_platform false ready_flash) 1 2
      (mk_world demo_statics [EvWrite 0 7]) = Ok 0 w' /\
    data_writes (issued w') = [(0, 7)].
Proof.
  eexists. split; [vm_compute; reflexivity |].
  match goal with
  | |- data_writes (issued ?x) = _ =>
      destruct (only_program_writes_data
                  (demo_platform false ready_flash) 1 2
                  (mk_world demo_statics [EvWrite 0 7]) x)
        as [_ [_ [_ [_ [_ [He _]]]]]]
  end.
  rewrite (He 0); reflexivity.
Defined.

(** ** Whole-device erase on a flash in good order *)

Section Healthy.

Variable P : platform.
Variable fuel K : nat.

Lemma read_then_while_busy_frame (rd : M Z) (s : intel_statics) (a : Z)
      (w w1 : world) (d' : Z) :
  reads_at P rd s a ->
  (d <- rd ;; while_busy fuel rd d) w = Ok d' w1 ->
  statics w = s ->
  statics w1 = s.
Proof.
  intros Hrd H Hs. apply bind_Ok in H. destruct H as [d0 [w0 [Hr Hwb]]].
  rewrite (Hrd w Hs) in Hr. unfold fl_read in Hr. injection Hr as <- <-.
  apply (while_busy_Ok P _ s a Hrd) in Hwb; [| exact Hs].
  destruct Hwb as [more [_ [Hs' _]]]. exact Hs'.
Qed.

Lemma change_lock_spec_healthy (confirm b : Z) (w : world) :
  (forall h a, ready_by P K (sr7flag (statics w)) a h = true) ->
  status_reads_clean P (statics w) ->
  (K <= fuel)%nat ->
  exists w', change_lock_spec P confirm fuel b w = Ok 0 w'.
Proof.
  intros Hready Hclean HK.
  unfold change_lock_spec, do_while_busy, fl_cmdwrite, intel_status_delay.
  rewrite !bind_emit. cbn [statics bus].
  destruct (read_then_while_busy_returns P _ (statics w) _
              (fl_read_blk_reads_at P _ b) fuel K
              (mk_world (statics w)
                 (EvDelay :: EvCmdWrite b confirm
                    :: EvCmdWrite b INTEL_CHANGE_LOCK :: bus w))
              eq_refl (Hready _ _) HK) as [d' [w1 Hpoll]].
  rewrite (bind_eval (d <- fl_read_blk P b ;; while_busy fuel (fl_read_blk P b) d)).
  rewrite Hpoll.
  apply (read_then_while_busy_frame _ (statics w) _ _ _ _
           (fl_read_blk_reads_at P _ b)) in Hpoll; [| reflexivity].
  rewrite bind_emit, bind_eval, intel_status_check_eq. cbv zeta.
  rewrite bind_eval, intel_rst_blk_eq. cbn [statics bus].
  rewrite Hpoll, Hclean. eexists. reflexivity.
Qed.

Lemma blk_erase_body_healthy (b : Z) (w : world) :
  (forall h a, ready_by P K (sr7flag (statics w)) a h = true) ->
  status_reads_clean P (statics w) ->
  (K <= fuel)%nat ->
  exists w', blk_erase_body P fuel b w = Ok 0 w'.
Proof.
  intros Hready Hclean HK.
  unfold blk_erase_body, fl_cmdwrite, intel_status_delay.
  rewrite !bind_emit. cbn [statics bus].
  destruct (read_then_while_busy_returns P _ (statics w) _
              (fl_read_blk_reads_at P _ b) fuel K
              (mk_world (statics w)
                 (EvDelay :: EvCmdWrite b INTEL_CONFIRM
                    :: EvCmdWrite b INTEL_BLOCK_ERASE :: bus w))
              eq_refl (Hready _ _) HK) as [d' [w1 Hpoll]].
  rewrite <- bind_bind.
  rewrite (bind_eval (d <- fl_read_blk P b ;; while_busy fuel (fl_read_blk P b) d)).
  rewrite Hpoll.
  apply (read_then_while_busy_frame _ (statics w) _ _ _ _
           (fl_read_blk_reads_at P _ b)) in Hpoll; [| reflexivity].
  rewrite bind_eval, intel_status_check_eq. cbv zeta.
  rewrite bind_eval, intel_rst_blk_eq. cbn [statics bus].
  rewrite Hpoll, Hclean. eexists. reflexivity.
Qed.

Lemma intel_blk_erase_dev_healthy (b : Z) (w : world) :
  (forall h a, ready_by P K (sr7flag (statics w)) a h = true) ->
  status_reads_clean P (statics w) ->
  (K <= fuel)%nat ->
  exists w',
    intel_blk_erase_dev P fuel b w = Ok 0 w' /\
    statics w' = statics w /\
    erased_blocks (issued w') = erased_blocks (issued w) ++ [b].
Proof.
  intros Hready Hclean HK.
  assert (Hbody : forall w0,
             statics w0 = statics w ->
             exists w', blk_erase_body P fuel b w0 = Ok 0 w' /\
                        statics w' = statics w /\
                        erased_blocks (issued w')
                        = erased_blocks (issued w0) ++ [b]).
  { intros w0 Hs0.
    destruct (blk_erase_body_healthy b w0) as [w' Hw'];
      rewrite ?Hs0; try assumption.
    exists w'. split; [exact Hw' |].
    apply blk_erase_body_trace in Hw'.
    destruct Hw' as [polls [st [Hi [_ [_ Hs]]]]].
    split; [congruence |]. rewrite Hi.
    rewrite !erased_blocks_app, erased_blocks_reads. reflexivity. }
  unfold intel_blk_erase_dev. destruct (NO_INTEL_UNLOCK_BLOCKS P).
  - apply Hbody. reflexivity.
  - destruct (change_lock_spec_healthy INTEL_CLEAR_LOCK_BITS b w
                Hready Hclean HK) as [w1 Hu].
    change (change_lock_spec P INTEL_CLEAR_LOCK_BITS fuel b)
      with (intel_unlock_block P fuel b) in Hu.
    rewrite bind_eval, Hu. cbn [Z.eqb negb].
    apply (change_lock_spec_trace P INTEL_CLEAR_LOCK_BITS) in Hu.
    destruct Hu as [polls [st [Hi [_ [_ Hs]]]]].
    destruct (Hbody w1 Hs) as [w' [Hw' [Hs' He]]].
    exists w'. split; [exact Hw' | split; [exact Hs' |]].
    rewrite He, Hi.
    rewrite !erased_blocks_app, erased_blocks_reads.
    change (erased_blocks [EvCmdWrite b INTEL_CHANGE_LOCK;
                           EvCmdWrite b INTEL_CLEAR_LOCK_BITS; EvDelay])
      with (@nil Z).
    change (erased_blocks
              [EvDelay; EvCmdWrite b INTEL_READ_STATUS;
               EvRead (BLKADDR_TO_ADDR (devinf (statics w)) b) st;
               EvCmdWrite 0 INTEL_CLEAR_STATUS;
               EvCmdWrite b INTEL_READ_ARRAY; EvDelay])
      with (@nil Z).
    cbn [app]. rewrite app_nil_r. reflexivity.
Qed.

Lemma erase_each_healthy (blocks : list Z) :
  forall w : world,
    (forall h a, ready_by P K (sr7flag (statics w)) a h = true) ->
    status_reads_clean P (statics w) ->
    (K <= fuel)%nat ->
    exists w',
      erase_each P fuel blocks w = Ok 0 w' /\
      erased_blocks (issued w') = erased_blocks (issued w) ++ blocks.
Proof.
  induction blocks as [| b rest IH]; intros w Hready Hclean HK.
  - exists w. split; [reflexivity |]. rewrite app_nil_r. reflexivity.
  - cbn [erase_each].
    destruct (intel_blk_erase_dev_healthy b w Hready Hclean HK)
      as [w1 [Hb [Hs He]]].
    rewrite bind_eval, Hb. cbn [Z.eqb].
    destruct (IH w1) as [w' [Hw' He']]; rewrite ?Hs; try assumption.
    exists w'. split; [exact Hw' |].
    rewrite He', He, <- app_assoc. reflexivity.
Qed.

End Healthy.

(** X2. On a flash that turns ready within the fuel and whose status reads
    decode to the ready code, [intel_erase_dev] returns ready, and the
    block-erase commands it has issued are one per block address of the
    geometry walk, at that address, in walk order. *)
Theorem intel_erase_dev_erases_each_block :
  forall (P : platform) (fuel K : nat) (w : world),
    (forall h a, ready_by P K (sr7flag (statics w)) a h = true) ->
    status_reads_clean P (statics w) ->
    (K <= fuel)%nat ->
    exists w',
      intel_erase_dev P fuel w = Ok 0 w' /\
      erased_blocks (issued w')
      = erased_blocks (issued w) ++ block_iterator P (devinf (statics w)).
Proof.
  intros P fuel K w Hready Hclean HK.
  unfold intel_erase_dev. rewrite bind_static.
  change 0 with (Z.of_nat 0) at 1. rewrite erase_regions_each.
  apply (erase_each_healthy P fuel K); assumption.
Qed.

(** The four blocks of the demonstration board, unlock included, on a flash
    that is busy for one poll after each command. *)
Lemma intel_erase_dev_erases_each_block_witness :
  exists w',
    intel_erase_dev (demo_platform false (slow_flash 1)) 2 demo_world = Ok 0 w' /\
    erased_blocks (issued w') = [0; 0x8000; 0x10000; 0x18000].
Proof.
  destruct (intel_erase_dev_erases_each_block
              (demo_platform false (slow_flash 1)) 2 1 demo_world)
    as [w' [H He]].
  - intros h a. unfold slow_flash. simpl.
    destruct (reads_so_far h); reflexivity.
  - intros h cmdaddr a. unfold slow_flash. simpl.
    destruct (reads_so_far h); reflexivity.
  - lia.
  - exists w'. split; [exact H | exact He].
Defined.

(** ** What a zero result means *)

Lemma intel_status_decode_ready_iff (s : intel_statics) (status : Z) :
  intel_status_decode s status = INTEL_STATUS_READY <->
  no_error_mask s status = true.
Proof.
  unfold intel_status_decode, no_error_mask.
  destruct (mask_set status (sr5flag s)), (mask_set status (sr4flag s)),
    (mask_set status (sr3flag s)), (mask_set status (sr2flag s)),
    (mask_set status (sr1flag s));
    cbn [negb andb]; split; intros H; try reflexivity; discriminate.
Qed.

Lemma ready_code_iff (P : platform) (s : intel_statics) (status : Z) :
  error_codes_nonzero P ->
  uint8_t (status_value P (intel_status_decode s status)) = 0 <->
  no_error_mask s status = true.
Proof.
  intros [Hseq [Her [Hpr [Hvo Hlo]]]].
  rewrite <- intel_status_decode_ready_iff.
  destruct (intel_status_decode s status); cbn [status_value];
    split; intros H; try reflexivity; try discriminate; contradiction.
Qed.

Section ZeroMeansReady.

Variable P : platform.
Variable fuel : nat.
Hypothesis Hcodes : error_codes_nonzero P.

Lemma change_lock_spec_zero_iff (confirm b : Z) (w w' : world) (r : Z) :
  change_lock_spec P confirm fuel b w = Ok r w' ->
  exists st, last_read (issued w') = Some st /\
             (r = 0 <-> no_error_mask (statics w) st = true).
Proof.
  intros H. apply change_lock_spec_trace in H.
  destruct H as [polls [st [Hi [_ [Hr _]]]]].
  exists st. split.
  - rewrite Hi, !last_read_app. reflexivity.
  - rewrite Hr. apply ready_code_iff. exact Hcodes.
Qed.

Lemma blk_erase_body_zero_iff (b : Z) (w w' : world) (r : Z) :
  blk_erase_body P fuel b w = Ok r w' ->
  exists st, last_read (issued w') = Some st /\
             (r = 0 <-> no_error_mask (statics w) st = true).
Proof.
  intros H. apply blk_erase_body_trace in H.
  destruct H as [polls [st [Hi [_ [Hr _]]]]].
  exists st. split.
  - rewrite Hi, !last_read_app. reflexivity.
  - rewrite Hr, int8_t_zero_iff. apply ready_code_iff. exact Hcodes.
Qed.

Lemma intel_blk_erase_dev_zero_iff (b : Z) (w w' : world) (r : Z) :
  intel_blk_erase_dev P fuel b w = Ok r w' ->
  exists st, last_read (issued w') = Some st /\
             (r = 0 <-> no_error_mask (statics w) st = true).
Proof.
  unfold intel_blk_erase_dev.
  destruct (NO_INTEL_UNLOCK_BLOCKS P); [apply blk_erase_body_zero_iff |].
  intros H. apply bind_Ok in H. destruct H as [st0 [w1 [Hu H]]].
  pose proof (frames_intel_unlock_block P fuel b w) as Hf.
  rewrite Hu in Hf. simpl in Hf.
  destruct (st0 =? 0) eqn:E0; cbn [negb] in H.
  - apply blk_erase_body_zero_iff in H. rewrite Hf in H. exact H.
  - unfold ret in H. injection H as <- <-.
    pose proof Hu as Hk.
    apply (change_lock_spec_kind P fuel INTEL_CLEAR_LOCK_BITS) in Hk.
    apply (change_lock_spec_zero_iff INTEL_CLEAR_LOCK_BITS) in Hu.
    destruct Hu as [st [Hl Hiff]]. exists st. split; [exact Hl |].
    rewrite <- Hiff, int8_t_zero_iff.
    destruct Hk as [k ->]. rewrite uint8_t_idem. reflexivity.
Qed.

End ZeroMeansReady.

(** X8. When none of the five error codes of errors.h is 0 as a [uint8_t],
    the status check, lock, unlock and block erase return 0 exactly when the
    last status word they read has none of the five error masks (erase
    error, program error, voltage error, program suspend, lock-bit error)
    set; the ready and erase-suspend bits of the word play no part. *)
Theorem zero_result_iff_no_error_mask :
  forall (P : platform) (fuel : nat) (b : Z) (w w' : world) (r : Z),
    error_codes_nonzero P ->
    (intel_status_check P b w = Ok r w' ->
     exists st, last_read (issued w') = Some st /\
                (r = 0 <-> no_error_mask (statics w) st = true)) /\
    (intel_lock_block P fuel b w = Ok r w' ->
     exists st, last_read (issued w') = Some st /\
                (r = 0 <-> no_error_mask (statics w) st = true)) /\
    (intel_unlock_block P fuel b w = Ok r w' ->
     exists st, last_read (issued w') = Some st /\
                (r = 0 <-> no_error_mask (statics w) st = true)) /\
    (intel_blk_erase_dev P fuel b w = Ok r w' ->
     exists st, last_read (issued w') = Some st /\
                (r = 0 <-> no_error_mask (statics w) st = true)).
Proof.
  intros P fuel b w w' r Hcodes.
  repeat match goal with |- _ /\ _ => split end.
  - intros H. rewrite intel_status_check_eq in H. cbv zeta in H.
    injection H as <- <-. eexists. split.
    + unfold issued. cbn [bus rev]. rewrite !last_read_app. reflexivity.
    + apply ready_code_iff. exact Hcodes.
  - apply (change_lock_spec_zero_iff P fuel Hcodes INTEL_SET_LOCK_BIT).
  - apply (change_lock_spec_zero_iff P fuel Hcodes INTEL_CLEAR_LOCK_BITS).
  - apply intel_blk_erase_dev_zero_iff. exact Hcodes.
Qed.

(** A lock of block 2 on a flash that answers "ready, erase suspended": the
    result is 0, the erase-suspend bit is no error. *)
Lemma zero_result_iff_no_error_mask_witness :
  error_codes_nonzero (demo_platform false (failing_flash INTEL_ERASE_SUSPEND))
  /\ exists w' st,
       intel_lock_block (demo_platform false (failing_flash INTEL_ERASE_SUSPEND))
                        1 2 demo_world = Ok 0 w' /\
       last_read (issued w') = Some st /\
       (0 = 0 <-> no_error_mask demo_statics st = true).
Proof.
  assert (Hc : error_codes_nonzero
                 (demo_platform false (failing_flash INTEL_ERASE_SUSPEND))).
  { repeat split; discriminate. }
  split; [exact Hc |].
  eexists. 
  match goal with
  | |- exists st, ?run = Ok 0 ?x /\ _ =>
      assert (Hrun : run = Ok 0 x) by (vm_compute; reflexivity);
      destruct (zero_result_iff_no_error_mask
                  (demo_platform false (failing_flash INTEL_ERASE_SUSPEND))
                  1 2 demo_world x 0 Hc) as [_ [Hl _]];
      destruct (Hl Hrun) as [st [Hlast Hiff]];
      exists st; split; [exact Hrun | split; [exact Hlast | exact Hiff]]
  end.
Defined.

(** ** No timeout *)

Section NeverReady.

Variable P : platform.

Lemma while_busy_never_returns (rd : M Z) (s : intel_statics) (a : Z) :
  reads_at P rd s a -> never_ready P s ->
  forall (fuel : nat) (d : Z) (w : world),
    statics w = s -> mask_set d (sr7flag s) = false ->
    while_busy fuel rd d w = OutOfFuel.
Proof.
  intros Hrd Hnever. induction fuel as [| fuel IH]; intros d w Hs Hd.
  - cbn [while_busy]. rewrite bind_static, Hs, Hd. reflexivity.
  - cbn [while_busy]. rewrite bind_static, Hs, Hd.
    rewrite bind_eval, (Hrd w Hs). unfold fl_read.
    apply IH; [exact Hs | apply Hnever].
Qed.

Lemma read_then_while_busy_never_returns (rd : M Z) (s : intel_statics)
      (a : Z) (fuel : nat) (w : world) :
  reads_at P rd s a -> never_ready P s -> statics w = s ->
  (d <- rd ;; while_busy fuel rd d) w = OutOfFuel.
Proof.
  intros Hrd Hnever Hs. rewrite bind_eval, (Hrd w Hs). unfold fl_read.
  apply (while_busy_never_returns rd s a Hrd Hnever); [exact Hs |].
  apply Hnever.
Qed.

Lemma change_lock_spec_never_returns (confirm : Z) (fuel : nat) (b : Z)
      (w : world) :
  never_ready P (statics w) ->
  change_lock_spec P confirm fuel b w = OutOfFuel.
Proof.
  intros Hnever.
  unfold change_lock_spec, do_while_busy, fl_cmdwrite, intel_status_delay.
  rewrite !bind_emit. cbn [statics bus].
  rewrite (bind_eval (d <- fl_read_blk P b ;; while_busy fuel (fl_read_blk P b) d)).
  rewrite (read_then_while_busy_never_returns _ (statics w) _ fuel _
             (fl_read_blk_reads_at P _ b) Hnever) by reflexivity.
  reflexivity.
Qed.

Lemma blk_erase_body_never_returns (fuel : nat) (b : Z) (w : world) :
  never_ready P (statics w) ->
  blk_erase_body P fuel b w = OutOfFuel.
Proof.
  intros Hnever.
  unfold blk_erase_body, fl_cmdwrite, intel_status_delay.
  rewrite !bind_emit. cbn [statics bus]. rewrite <- bind_bind.
  rewrite (bind_eval (d <- fl_read_blk P b ;; while_busy fuel (fl_read_blk P b) d)).
  rewrite (read_then_while_busy_never_returns _ (statics w) _ fuel _
             (fl_read_blk_reads_at P _ b) Hnever) by reflexivity.
  reflexivity.
Qed.

Lemma prog_unit_never_returns (fuel : nat) (off srcaddr : Z) (w : world) :
  never_ready P (statics w) ->
  prog_unit P fuel off srcaddr w = OutOfFuel.
Proof.
  intros Hnever.
  unfold prog_unit, fl_cmdwrite, fl_write, intel_status_delay.
  rewrite bind_static, !bind_emit. cbn [statics bus]. rewrite <- bind_bind.
  rewrite (bind_eval (d <- fl_read P off ;; while_busy fuel (fl_read P off) d)).
  rewrite (read_then_while_busy_never_returns _ (statics w) _ fuel _
             (fl_read_reads_at P _ off) Hnever) by reflexivity.
  reflexivity.
Qed.

End NeverReady.

(** X6. The busy-waits have no timeout: on a flash that never answers with
    the ready mask set, lock, unlock, block erase and a program call with at
    least one unit to write do not return, whatever the fuel. *)
Theorem busy_wait_has_no_timeout :
  forall (P : platform) (fuel : nat) (b off srcaddr n : Z) (w : world),
    never_ready P (statics w) ->
    intel_lock_block P fuel b w = OutOfFuel /\
    intel_unlock_block P fuel b w = OutOfFuel /\
    intel_blk_erase_dev P fuel b w = OutOfFuel /\
    (addr_step (statics w) <> 0 ->
     align_nbytes (addr_step (statics w)) n <> 0 ->
     intel_prog_dev P fuel off srcaddr n w = OutOfFuel).
Proof.
  intros P fuel b off srcaddr n w Hnever.
  split; [apply (change_lock_spec_never_returns P INTEL_SET_LOCK_BIT);
          exact Hnever |].
  split; [apply (change_lock_spec_never_returns P INTEL_CLEAR_LOCK_BITS);
          exact Hnever |].
  split.
  - unfold intel_blk_erase_dev. destruct (NO_INTEL_UNLOCK_BLOCKS P).
    + apply blk_erase_body_never_returns. exact Hnever.
    + rewrite bind_eval.
      change (intel_unlock_block P fuel b)
        with (change_lock_spec P INTEL_CLEAR_LOCK_BITS fuel b).
      rewrite change_lock_spec_never_returns by exact Hnever. reflexivity.
  - intros Hstep Hn. rewrite intel_prog_dev_eq by exact Hstep.
    apply Z.eqb_neq in Hn. destruct fuel as [| fuel].
    + cbn [prog_loop]. rewrite Hn. reflexivity.
    + rewrite prog_loop_S, Hn, bind_eval.
      rewrite prog_unit_never_returns by exact Hnever. reflexivity.
Qed.

(** A flash that always answers 0 on the demonstration board: a lock of
    block 2 and a program call of 2 bytes run out of any fuel, here 1000
    polls. *)
Lemma busy_wait_has_no_timeout_witness :
  intel_lock_block (demo_platform false (fun _ _ => 0)) 1000 2 demo_world
    = OutOfFuel /\
  intel_prog_dev (demo_platform false (fun _ _ => 0)) 1000 0 100 2 demo_world
    = OutOfFuel.
Proof.
  destruct (busy_wait_has_no_timeout
              (demo_platform false (fun _ _ => 0)) 1000 2 0 100 2 demo_world)
    as [Hl [_ [_ Hp]]].
  - intros h a. reflexivity.
  - split; [exact Hl |]. apply Hp; discriminate.
Defined.

(** ** Programming nothing *)

(** X5. A program call of zero bytes (with a non-zero [addr_step]) returns
    ready after the reset of the target block and nothing else: no program
    command, no data write, no read of the flash, so it returns with any
    fuel and whatever the flash would answer. *)
Theorem intel_prog_dev_zero_bytes :
  forall (P : platform) (fuel : nat) (off srcaddr : Z) (w : world),
    addr_step (statics w) <> 0 ->
    exists w',
      intel_prog_dev P fuel off srcaddr 0 w = Ok 0 w' /\
      statics w' = statics w /\
      issued w' =
        issued w
        ++ reset_events (ADDR_TO_BLKADDR (devinf (statics w)) off).
Proof.
  intros P fuel off srcaddr w Hstep.
  rewrite intel_prog_dev_eq by exact Hstep.
  unfold align_nbytes. rewrite Z.mod_0_l by exact Hstep. cbn [Z.eqb negb].
  eexists. split; [destruct fuel; reflexivity |].
  split; [reflexivity |].
  unfold issued. cbn [bus rev]. rewrite <- !app_assoc. reflexivity.
Qed.

(** Zero bytes at offset 0x20000 of the demonstration board, on a flash that
    is never ready and with no fuel at all. *)
Lemma intel_prog_dev_zero_bytes_witness :
  exists w',
    intel_prog_dev (demo_platform false (fun _ _ => 0)) 0 0x20000 100 0
                   demo_world = Ok 0 w' /\
    issued w' = [EvCmdWrite 0 INTEL_CLEAR_STATUS;
                 EvCmdWrite 0x10000 INTEL_READ_ARRAY; EvDelay].
Proof.
  destruct (intel_prog_dev_zero_bytes
              (demo_platform false (fun _ _ => 0)) 0 0x20000 100 demo_world)
    as [w' [H [_ Hi]]].
  - discriminate.
  - exists w'. split; [exact H | exact Hi].
Defined.

(** ** What a program call writes *)


Section ProgramWrites.

Variable P : platform.
Variable fuel : nat.



End ProgramWrites.






(** * Properties of the flashwriter state machine *)

Section FlashwriterPasses.

Import Flashwriter.

Variable E : fw_env.

Lemma skipn_app_length {A : Type} (l r : list A) :
  skipn (length l) (l ++ r) = r.
Proof. induction l as [| x l IH]; [reflexivity | exact IH]. Qed.

Lemma grows_refl (s s1 : fw_state) :
  fw_log s1 = fw_log s -> grows_by_calls s s1.
Proof. intros H. exists []. rewrite H, app_nil_r. reflexivity. Qed.

Lemma grows_trans (s s1 s2 : fw_state) :
  grows_by_calls s s1 -> grows_by_calls s1 s2 -> grows_by_calls s s2.
Proof.
  intros [c1 H1] [c2 H2]. exists (c1 ++ c2).
  rewrite H2, H1, map_app, app_assoc. reflexivity.
Qed.

Lemma grows_xflash (c : xcall) (s : fw_state) :
  grows_by_calls s (snd (xflash E c s)).
Proof. exists [c]. reflexivity. Qed.

Lemma verify_log (ret : Z) (todo : nat) :
  forall (i : nat) (s : fw_state), fw_log (verify ret i todo s) = fw_log s.
Proof.
  induction todo as [| todo IH]; intros i s; cbn [verify]; [reflexivity |].
  destruct (negb _); [reflexivity | apply IH].
Qed.

Ltac grows_calls :=
  repeat match goal with
         | |- context [if ?b then _ else _] => destruct b
         end;
  unfold grows_by_calls;
  cbn [fw_log report_error put_writer_param put_writer_status put_writer_cmd
       with_sndmbox clear_readbuf];
  rewrite ?verify_log;
  cbn [fw_log report_error put_writer_param put_writer_status put_writer_cmd
       with_sndmbox clear_readbuf];
  first [ exists []; rewrite app_nil_r; reflexivity
        | eexists [_]; reflexivity
        | eexists [_; _]; cbn [map]; rewrite <- app_assoc; reflexivity ].

Lemma dispatch_grows (s s1 : fw_state) :
  dispatch E s = FwOk s1 -> grows_by_calls s s1.
Proof.
  unfold dispatch. cbv zeta.
  repeat match goal with
         | |- context [if ?b then _ else _] => destruct b
         end;
    intros H.
  - injection H as <-.
    cbv beta iota zeta delta [case_CMD_CFI_QRY xflash]. grows_calls.
  - injection H as <-. unfold case_CMD_INIT_DEV. grows_calls.
  - injection H as <-.
    cbv beta iota zeta delta [case_CMD_RST_DEV xflash]. grows_calls.
  - injection H as <-.
    cbv beta iota zeta delta [case_CMD_ERASE_DEV xflash]. grows_calls.
  - injection H as <-.
    cbv beta iota zeta delta [case_CMD_BLK_ERASE_DEV xflash]. grows_calls.
  - cbv beta iota zeta delta [case_CMD_PROG_DEV xflash] in H.
    repeat match type of H with
           | context [if ?b then _ else _] => destruct b
           end;
      try discriminate; injection H as <-; grows_calls.
  - injection H as <-.
    cbv beta iota zeta delta [case_CMD_BATCH xflash]. grows_calls.
  - injection H as <-. unfold case_CMD_EXIT, case_CMD_NONE. grows_calls.
  - injection H as <-. unfold case_CMD_NONE. grows_calls.
  - injection H as <-. grows_calls.
Qed.

Lemma after_switch_log (s1 : fw_state) :
  fw_log (after_switch E s1) =
  if status (sndmbox s1) =? STATUS_ERR then fw_log s1
  else fw_log s1 ++ [Callback (sndmbox s1)].
Proof.
  unfold after_switch. cbv zeta.
  change (get_writer_status (clr_host_cmd s1)) with (status (sndmbox s1)).
  destruct (status (sndmbox s1) =? STATUS_ERR); reflexivity.
Qed.

Lemma pass_new_events (s s' : fw_state) :
  flashwriter_sm_pass E s = FwOk s' ->
  exists s1 cs,
    dispatch E s = FwOk s1 /\ s' = after_switch E s1 /\
    new_events s s' =
      map Call cs
      ++ (if status (sndmbox s1) =? STATUS_ERR then []
          else [Callback (sndmbox s1)]).
Proof.
  unfold flashwriter_sm_pass. destruct (dispatch E s) as [s1 |] eqn:Hd;
    [| discriminate].
  intros H. injection H as <-.
  destruct (dispatch_grows _ _ Hd) as [cs Hcs].
  exists s1, cs. split; [reflexivity | split; [reflexivity |]].
  unfold new_events. rewrite after_switch_log, Hcs.
  destruct (status (sndmbox s1) =? STATUS_ERR).
  - rewrite skipn_app_length, app_nil_r. reflexivity.
  - rewrite <- app_assoc, skipn_app_length. reflexivity.
Qed.

End FlashwriterPasses.

(** X9. [xmd_callback] is never reached with an error status: whatever the
    command and whatever the library returns, a callback of a pass shows the
    host a writer status other than [STATUS_ERR], and the pass ends with the
    writer mailbox cleared (command [CMD_NONE], status [STATUS_IDLE]). *)
Theorem callback_never_shows_error :
  forall (E : Flashwriter.fw_env) (s s' : Flashwriter.fw_state),
    Flashwriter.flashwriter_sm_pass E s = Flashwriter.FwOk s' ->
    (forall m,
        In (Flashwriter.Callback m) (Flashwriter.new_events s s') ->
        Flashwriter.status m <> Flashwriter.STATUS_ERR) /\
    Flashwriter.status (Flashwriter.sndmbox s') = Flashwriter.STATUS_IDLE /\
    Flashwriter.cmd (Flashwriter.sndmbox s') = Flashwriter.CMD_NONE.
Proof.
  intros E s s' H. apply pass_new_events in H.
  destruct H as [s1 [cs [_ [-> Hnew]]]]. split; [| split].
  - intros m Hin. rewrite Hnew in Hin. apply in_app_or in Hin.
    destruct Hin as [Hin | Hin].
    + apply in_map_iff in Hin. destruct Hin as [c [Hc _]]. discriminate.
    + destruct (Flashwriter.status (Flashwriter.sndmbox s1)
                =? Flashwriter.STATUS_ERR) eqn:Est; [contradiction |].
      destruct Hin as [Hm | []]. injection Hm as <-.
      apply Z.eqb_neq. exact Est.
  - unfold Flashwriter.after_switch. cbv zeta.
    destruct (_ =? _); reflexivity.
  - unfold Flashwriter.after_switch. cbv zeta.
    destruct (_ =? _); reflexivity.
Qed.

(** A reset command whose library call fails, and one whose call succeeds. *)
Lemma callback_never_shows_error_witness :
  (exists s',
      Flashwriter.flashwriter_sm_pass
        (Flashwriter.demo_env (Flashwriter.const_lib 1 3 []))
        (Flashwriter.demo_fw Flashwriter.CMD_RST_DEV [0; 0; 0; 0] [])
      = Flashwriter.FwOk s' /\
      Flashwriter.fw_log s' = [Flashwriter.Call Flashwriter.XFlash_Reset] /\
      Flashwriter.status (Flashwriter.sndmbox s') = Flashwriter.STATUS_IDLE) /\
  (exists s',
      Flashwriter.flashwriter_sm_pass
        (Flashwriter.demo_env (Flashwriter.const_lib 0 3 []))
        (Flashwriter.demo_fw Flashwriter.CMD_RST_DEV [0; 0; 0; 0] [])
      = Flashwriter.FwOk s' /\
      Flashwriter.fw_log s' =
        [Flashwriter.Call Flashwriter.XFlash_Reset;
         Flashwriter.Callback
           (Flashwriter.mk_msg Flashwriter.CMD_NONE Flashwriter.STATUS_SUCCESS
                               [0; 0; 0; 0])] /\
      Flashwriter.status (Flashwriter.sndmbox s') = Flashwriter.STATUS_IDLE).
Proof.
  split.
  - eexists. split; [vm_compute; reflexivity |]. split; [reflexivity |].
    match goal with
    | |- Flashwriter.status (Flashwriter.sndmbox ?x) = _ =>
        apply (callback_never_shows_error
                 (Flashwriter.demo_env (Flashwriter.const_lib 1 3 []))
                 (Flashwriter.demo_fw Flashwriter.CMD_RST_DEV [0; 0; 0; 0] [])
                 x)
    end.
    reflexivity.
  - eexists. split; [vm_compute; reflexivity |]. split; [reflexivity |].
    match goal with
    | |- Flashwriter.status (Flashwriter.sndmbox ?x) = _ =>
        apply (callback_never_shows_error
                 (Flashwriter.demo_env (Flashwriter.const_lib 0 3 []))
                 (Flashwriter.demo_fw Flashwriter.CMD_RST_DEV [0; 0; 0; 0] [])
                 x)
    end.
    reflexivity.
Defined.

Section FlashwriterCommands.

Import Flashwriter.

(** X10. An error is shown to the host as idle.  A pass that makes no
    callback (its command failed) leaves the null command in the host
    mailbox; the pass that follows makes the callback, and what the host
    finds there is the status [STATUS_IDLE], with the parameters of the
    failed pass still in the writer mailbox. *)
Theorem error_is_seen_as_idle :
  forall (E : fw_env) (s s1 : fw_state),
    flashwriter_sm_pass E s = FwOk s1 ->
    (forall m, ~ In (Callback m) (new_events s s1)) ->
    exists s2,
      flashwriter_sm_pass E s1 = FwOk s2 /\
      new_events s1 s2 =
        [Callback (mk_msg CMD_NONE STATUS_IDLE (param (sndmbox s1)))].
Proof.
  intros E s s1 H Hno. apply pass_new_events in H.
  destruct H as [sd [cs [_ [-> Hnew]]]].
  destruct (status (sndmbox sd) =? STATUS_ERR) eqn:Est.
  - unfold after_switch. cbv zeta.
    change (get_writer_status (clr_host_cmd sd)) with (status (sndmbox sd)).
    rewrite Est.
    eexists. split; [reflexivity |].
    unfold new_events. rewrite after_switch_log.
    cbn [fw_log clr_writer_status clr_writer_cmd
      put_writer_status put_writer_cmd with_sndmbox clr_host_cmd
      case_CMD_NONE sndmbox cmd status param].
    change (uint8_t STATUS_IDLE =? STATUS_ERR) with false. cbv iota.
    rewrite skipn_app_length. reflexivity.
  - exfalso. apply (Hno (sndmbox sd)). rewrite Hnew.
    apply in_or_app. right. left. reflexivity.
Qed.

(** A reset whose library call returns 1, then the pass that follows. *)
Lemma error_is_seen_as_idle_witness :
  exists s1 s2,
    flashwriter_sm_pass (demo_env (const_lib 1 3 []))
                        (demo_fw CMD_RST_DEV [0; 0; 0; 0] []) = FwOk s1 /\
    flashwriter_sm_pass (demo_env (const_lib 1 3 [])) s1 = FwOk s2 /\
    new_events s1 s2 = [Callback (mk_msg CMD_NONE STATUS_IDLE [1; 0; 0; 0])].
Proof.
  eexists.
  match goal with
  | |- exists s2, ?run = FwOk ?x /\ _ =>
      assert (Hrun : run = FwOk x) by (vm_compute; reflexivity);
      destruct (error_is_seen_as_idle
                  (demo_env (const_lib 1 3 []))
                  (demo_fw CMD_RST_DEV [0; 0; 0; 0] []) x Hrun)
        as [s2 [H2 Hn]]
  end.
  - intros m Hin. vm_compute in Hin. destruct Hin as [Hin | []].
    discriminate.
  - exists s2. split; [exact Hrun | split; [exact H2 | exact Hn]].
Defined.

(** X11. The exit command does not stop the machine and does not show:
    [case CMD_EXIT] falls through into [case CMD_NONE], so a pass on
    [CMD_EXIT] is the pass on [CMD_NONE] from the same state, and its
    callback shows [STATUS_IDLE], never [STATUS_EXIT]. *)
Theorem exit_command_is_null_command :
  forall (E : fw_env) (s : fw_state),
    uint8_t (cmd (rcvmbox s)) = CMD_EXIT ->
    flashwriter_sm_pass E s = flashwriter_sm_pass E (with_host_cmd CMD_NONE s)
    /\ exists s',
         flashwriter_sm_pass E s = FwOk s' /\
         new_events s s' =
           [Callback (mk_msg (cmd (sndmbox s)) STATUS_IDLE (param (sndmbox s)))].
Proof.
  intros E s Hc.
  assert (Hpass : flashwriter_sm_pass E s =
                  FwOk (after_switch E (case_CMD_NONE s))).
  { unfold flashwriter_sm_pass, dispatch. cbv zeta.
    unfold get_host_cmd. rewrite Hc. reflexivity. }
  split.
  - rewrite Hpass. reflexivity.
  - eexists. split; [exact Hpass |].
    unfold new_events. rewrite after_switch_log.
    cbn [fw_log put_writer_status with_sndmbox case_CMD_NONE sndmbox cmd
      status param].
    change (uint8_t STATUS_IDLE =? STATUS_ERR) with false. cbv iota.
    rewrite skipn_app_length. reflexivity.
Qed.

Lemma exit_command_is_null_command_witness :
  exists s',
    flashwriter_sm_pass (demo_env (const_lib 0 3 []))
                        (demo_fw CMD_EXIT [0; 0; 0; 0] []) = FwOk s' /\
    new_events (demo_fw CMD_EXIT [0; 0; 0; 0] []) s' =
      [Callback (mk_msg CMD_NONE STATUS_IDLE [0; 0; 0; 0])].
Proof.
  destruct (exit_command_is_null_command
              (demo_env (const_lib 0 3 []))
              (demo_fw CMD_EXIT [0; 0; 0; 0] []) eq_refl)
    as [_ [s' [H Hn]]].
  exists s'. split; [exact H | exact Hn].
Defined.

(** X12. A failed verify is reported as success.  On [CMD_PROG_DEV] with a
    byte count within [membuf], when the library's write and read both
    return 0 (as a [uint8_t]), the pass calls [XFlash_Write] with [membuf]
    and [XFlash_Read] on the same range, and the callback shows
    [STATUS_SUCCESS], whatever was read back: the [break] of the compare loop
    leaves the loop only, and the status is then overwritten. *)
Theorem verify_failure_reported_as_success :
  forall (E : fw_env) (s : fw_state),
    uint8_t (cmd (rcvmbox s)) = CMD_PROG_DEV ->
    (forall log c, uint8_t (x_ret (xilflash E log c)) = 0) ->
    get_host_param DATA_BYTES_COUNT_PARAM s <= MEMBUF_SIZ E ->
    exists s' m,
      flashwriter_sm_pass E s = FwOk s' /\
      new_events s s' =
        [Call (XFlash_Write (get_host_param PROG_OFFSET_PARAM s)
                            (get_host_param DATA_BYTES_COUNT_PARAM s)
                            (SrcMembuf (membuf s)));
         Call (XFlash_Read (get_host_param PROG_OFFSET_PARAM s)
                           (get_host_param DATA_BYTES_COUNT_PARAM s));
         Callback m] /\
      status m = STATUS_SUCCESS.
Proof.
  intros E s Hc Hlib Hn.
  assert (Hd : exists s1,
             dispatch E s = FwOk s1 /\
             fw_log s1 =
               fw_log s
               ++ [Call (XFlash_Write (get_host_param PROG_OFFSET_PARAM s)
                           (get_host_param DATA_BYTES_COUNT_PARAM s)
                           (SrcMembuf (membuf s)));
                   Call (XFlash_Read (get_host_param PROG_OFFSET_PARAM s)
                           (get_host_param DATA_BYTES_COUNT_PARAM s))] /\
             status (sndmbox s1) = STATUS_SUCCESS).
  { unfold dispatch. cbv zeta. unfold get_host_cmd. rewrite Hc.
    cbv beta iota zeta delta [Z.eqb CMD_PROG_DEV CMD_CFI_QRY CMD_INIT_DEV
      CMD_RST_DEV CMD_ERASE_DEV CMD_BLK_ERASE_DEV Pos.eqb].
    cbv beta iota zeta delta [case_CMD_PROG_DEV xflash].
    rewrite !Hlib. cbn [Z.eqb negb].
    apply Z.ltb_ge in Hn.
    change (get_host_param DATA_BYTES_COUNT_PARAM
              (put_writer_status STATUS_BUSY s))
      with (get_host_param DATA_BYTES_COUNT_PARAM s).
    rewrite Hn.
    eexists. split; [reflexivity |]. split; [| reflexivity].
    cbn [fw_log put_writer_status with_sndmbox].
    rewrite verify_log. cbn [fw_log clear_readbuf put_writer_status
      with_sndmbox membuf].
    rewrite <- app_assoc. reflexivity. }
  destruct Hd as [s1 [Hd [Hlog Hst]]].
  exists (after_switch E s1), (sndmbox s1).
  unfold flashwriter_sm_pass. rewrite Hd. split; [reflexivity |].
  split; [| exact Hst].
  unfold new_events. rewrite after_switch_log, Hst.
  change (STATUS_SUCCESS =? STATUS_ERR) with false. cbv iota.
  rewrite Hlog, <- app_assoc, skipn_app_length. reflexivity.
Qed.

(** Four bytes 1, 2, 3, 4 written and 9, 9, 9, 9 read back. *)
Lemma verify_failure_reported_as_success_witness :
  exists s' m,
    flashwriter_sm_pass (demo_env (const_lib 0 3 [9; 9; 9; 9]))
                        (demo_fw CMD_PROG_DEV [0; 4; 0; 0] [1; 2; 3; 4])
      = FwOk s' /\
    new_events (demo_fw CMD_PROG_DEV [0; 4; 0; 0] [1; 2; 3; 4]) s' =
      [Call (XFlash_Write 0 4 (SrcMembuf [1; 2; 3; 4]));
       Call (XFlash_Read 0 4); Callback m] /\
    status m = STATUS_SUCCESS.
Proof.
  apply (verify_failure_reported_as_success
           (demo_env (const_lib 0 3 [9; 9; 9; 9]))
           (demo_fw CMD_PROG_DEV [0; 4; 0; 0] [1; 2; 3; 4])).
  - reflexivity.
  - intros log c. reflexivity.
  - discriminate.
Defined.






(** X14. A failed unlock stops the erase, and the host is not told.  On
    [CMD_ERASE_DEV] with one of the Intel command sets in [devinfo], when
    [XFlash_Unlock] returns a code whose low byte is not zero, the pass makes
    that one library call and nothing else: no [XFlash_Erase], and no
    callback.  The low byte of the code is left in parameter 0 of the writer
    mailbox. *)
Theorem failed_unlock_skips_erase :
  forall (E : fw_env) (s : fw_state),
    uint8_t (cmd (rcvmbox s)) = CMD_ERASE_DEV ->
    intel_command_set E s = true ->
    uint8_t (x_ret (xilflash E (fw_log s)
                      (XFlash_Unlock (get_host_param ADDR_PARAM s)
                                     (get_host_param NBYTES_PARAM s)))) <> 0 ->
    length (param (sndmbox s)) = WRITER_MAX_PARAMS ->
    exists s',
      flashwriter_sm_pass E s = FwOk s' /\
      new_events s s' =
        [Call (XFlash_Unlock (get_host_param ADDR_PARAM s)
                             (get_host_param NBYTES_PARAM s))] /\
      get_writer_param ERR_CODE_PARAM s' =
        uint8_t (x_ret (xilflash E (fw_log s)
                          (XFlash_Unlock (get_host_param ADDR_PARAM s)
                                         (get_host_param NBYTES_PARAM s)))).
Proof.
  intros E s Hc Hi Hret Hlen.
  assert (Hpass : flashwriter_sm_pass E s
                  = FwOk (after_switch E (case_CMD_ERASE_DEV E s))).
  { unfold flashwriter_sm_pass, dispatch. cbv zeta. unfold get_host_cmd.
    rewrite Hc. reflexivity. }
  exists (after_switch E (case_CMD_ERASE_DEV E s)).
  split; [exact Hpass |].
  destruct s as [[rc rs rp] [sc ss sp] cs mb rb lg].
  cbn [sndmbox param] in Hlen.
  destruct sp as [| p0 sp]; [discriminate |].
  revert Hi Hret.
  cbv beta iota zeta delta
    [case_CMD_ERASE_DEV xflash intel_command_set get_host_param
     put_writer_status with_sndmbox rcvmbox sndmbox CommandSet membuf readbuf
     param fw_log status cmd].
  intros Hi Hret. rewrite Hi.
  apply Z.eqb_neq in Hret. rewrite Hret. cbn [negb].
  split.
  - unfold new_events. rewrite after_switch_log.
    cbn [report_error put_writer_param put_writer_status with_sndmbox sndmbox
      status fw_log].
    change (uint8_t STATUS_ERR =? STATUS_ERR) with true. cbv iota.
    apply skipn_app_length.
  - unfold after_switch. cbv zeta.
    cbn [report_error put_writer_param put_writer_status with_sndmbox sndmbox
      status fw_log clr_host_cmd get_writer_status].
    change (uint8_t STATUS_ERR =? STATUS_ERR) with true. cbv iota.
    generalize (uint8_t_range
                  (x_ret (xilflash E lg
                            (XFlash_Unlock (nth ADDR_PARAM rp 0)
                                           (nth NBYTES_PARAM rp 0))))).
    generalize (uint8_t
                  (x_ret (xilflash E lg
                            (XFlash_Unlock (nth ADDR_PARAM rp 0)
                                           (nth NBYTES_PARAM rp 0))))).
    intros r Hr.
    cbv beta iota zeta delta
      [clr_writer_status clr_writer_cmd put_writer_status put_writer_cmd
       put_writer_param report_error clr_host_cmd with_sndmbox
       get_writer_param sndmbox param cmd status set_nth ERR_CODE_PARAM nth].
    unfold uint32_t. apply Z.mod_small. lia.
Qed.

(** An erase of 0x20000 bytes at 0x40000 on the Intel standard command set,
    with a library whose calls return 5. *)
Lemma failed_unlock_skips_erase_witness :
  exists s',
    flashwriter_sm_pass (demo_env (const_lib 5 3 []))
                        (demo_fw CMD_ERASE_DEV [0x40000; 0x20000; 0; 0] [])
      = FwOk s' /\
    new_events (demo_fw CMD_ERASE_DEV [0x40000; 0x20000; 0; 0] []) s' =
      [Call (XFlash_Unlock 0x40000 0x20000)] /\
    get_writer_param ERR_CODE_PARAM s' = 5.
Proof.
  apply (failed_unlock_skips_erase
           (demo_env (const_lib 5 3 []))
           (demo_fw CMD_ERASE_DEV [0x40000; 0x20000; 0; 0] [])).
  - reflexivity.
  - reflexivity.
  - discriminate.
  - reflexivity.
Defined.

(** X15. Only the low byte of a library return code is looked at: [ret] is
    a [uint8_t].  On [CMD_RST_DEV], when [XFlash_Reset] returns a code that is
    a multiple of 256, zero or not, the pass ends in a callback that shows
    [STATUS_SUCCESS]. *)
Theorem reset_code_low_byte_only :
  forall (E : fw_env) (s : fw_state),
    uint8_t (cmd (rcvmbox s)) = CMD_RST_DEV ->
    x_ret (xilflash E (fw_log s) XFlash_Reset) mod 256 = 0 ->
    exists s' m,
      flashwriter_sm_pass E s = FwOk s' /\
      new_events s s' = [Call XFlash_Reset; Callback m] /\
      status m = STATUS_SUCCESS.
Proof.
  intros E s Hc Hret.
  assert (Hpass : flashwriter_sm_pass E s
                  = FwOk (after_switch E (case_CMD_RST_DEV E s))).
  { unfold flashwriter_sm_pass, dispatch. cbv zeta. unfold get_host_cmd.
    rewrite Hc. reflexivity. }
  assert (Hcase : case_CMD_RST_DEV E s
                  = put_writer_status STATUS_SUCCESS
                      (snd (xflash E XFlash_Reset
                              (put_writer_status STATUS_BUSY s)))).
  { cbv beta iota zeta delta [case_CMD_RST_DEV xflash].
    cbn [fw_log put_writer_status with_sndmbox].
    change (uint8_t (x_ret (xilflash E (fw_log s) XFlash_Reset)))
      with (x_ret (xilflash E (fw_log s) XFlash_Reset) mod 256).
    rewrite Hret. reflexivity. }
  exists (after_switch E (case_CMD_RST_DEV E s)),
         (sndmbox (case_CMD_RST_DEV E s)).
  split; [exact Hpass |].
  split.
  - unfold new_events. rewrite after_switch_log. rewrite Hcase.
    cbn [put_writer_status with_sndmbox sndmbox status fw_log xflash snd].
    change (uint8_t STATUS_SUCCESS =? STATUS_ERR) with false. cbv iota.
    rewrite <- app_assoc. apply skipn_app_length.
  - rewrite Hcase. reflexivity.
Qed.

(** A reset whose library call returns 512. *)
Lemma reset_code_low_byte_only_witness :
  exists s' m,
    flashwriter_sm_pass (demo_env (const_lib 512 3 []))
                        (demo_fw CMD_RST_DEV [0; 0; 0; 0] []) = FwOk s' /\
    new_events (demo_fw CMD_RST_DEV [0; 0; 0; 0] []) s' =
      [Call XFlash_Reset; Callback m] /\
    status m = STATUS_SUCCESS.
Proof.
  apply (reset_code_low_byte_only
           (demo_env (const_lib 512 3 []))
           (demo_fw CMD_RST_DEV [0; 0; 0; 0] [])).
  - reflexivity.
  - reflexivity.
Defined.

(** X16. A CFI query that succeeds answers with the command set.  On
    [CMD_CFI_QRY] the library is initialised with the base address the host
    gave and the bus width, cut to a byte, divided by 8; when that call
    returns a code whose low byte is zero, the callback shows the command
    [CMD_REPLY], the status [STATUS_SUCCESS] and, as parameter 0, the command
    set the call left in [devinfo]. *)
Theorem cfi_query_replies_command_set :
  forall (E : fw_env) (s : fw_state) (c : xcall) (r : xreply),
    uint8_t (cmd (rcvmbox s)) = CMD_CFI_QRY ->
    c = XFlash_Initialize (get_host_param BASE_ADDR_PARAM s)
          (uint8_t (get_host_param BUS_WIDTH_PARAM s) / 8)
          (IsPlatformFlash E) ->
    r = xilflash E (fw_log s) c ->
    uint8_t (x_ret r) = 0 ->
    length (param (sndmbox s)) = WRITER_MAX_PARAMS ->
    exists s' m,
      flashwriter_sm_pass E s = FwOk s' /\
      new_events s s' = [Call c; Callback m] /\
      cmd m = CMD_REPLY /\
      status m = STATUS_SUCCESS /\
      nth DEV_ALGO_PARAM (param m) 0 = uint32_t (x_CommandSet r).
Proof.
  intros E s c r Hc -> -> Hret Hlen.
  assert (Hpass : flashwriter_sm_pass E s
                  = FwOk (after_switch E (case_CMD_CFI_QRY E s))).
  { unfold flashwriter_sm_pass, dispatch. cbv zeta. unfold get_host_cmd.
    rewrite Hc. reflexivity. }
  exists (after_switch E (case_CMD_CFI_QRY E s)),
         (sndmbox (case_CMD_CFI_QRY E s)).
  split; [exact Hpass |].
  unfold new_events. rewrite after_switch_log.
  destruct s as [[rc rs rp] [sc ss sp] cs mb rb lg].
  cbn [sndmbox param] in Hlen.
  destruct sp as [| p0 sp]; [discriminate |].
  revert Hret.
  cbv beta iota zeta delta
    [case_CMD_CFI_QRY xflash get_host_param put_writer_status put_writer_cmd
     put_writer_param with_sndmbox rcvmbox sndmbox CommandSet membuf readbuf
     param fw_log status cmd].
  intros Hret. rewrite Hret. cbn [Z.eqb negb].
  change (uint8_t STATUS_SUCCESS =? STATUS_ERR) with false. cbv iota.
  rewrite <- app_assoc, skipn_app_length.
  repeat match goal with |- _ /\ _ => split end; reflexivity.
Qed.

(** A query for a 16-bit device at 0x48000000, with a library that leaves
    command set 3. *)
Lemma cfi_query_replies_command_set_witness :
  exists s' m,
    flashwriter_sm_pass (demo_env (const_lib 0 3 []))
                        (demo_fw CMD_CFI_QRY [0x48000000; 16; 0; 0] [])
      = FwOk s' /\
    new_events (demo_fw CMD_CFI_QRY [0x48000000; 16; 0; 0] []) s' =
      [Call (XFlash_Initialize 0x48000000 2 0); Callback m] /\
    cmd m = CMD_REPLY /\
    status m = STATUS_SUCCESS /\
    nth DEV_ALGO_PARAM (param m) 0 = 3.
Proof.
  apply (cfi_query_replies_command_set
           (demo_env (const_lib 0 3 []))
           (demo_fw CMD_CFI_QRY [0x48000000; 16; 0; 0] [])
           (XFlash_Initialize 0x48000000 2 0)
           (mk_xreply 0 3 [])).
  - reflexivity.
  - reflexivity.
  - reflexivity.
  - reflexivity.
  - reflexivity.
Defined.

End FlashwriterCommands.
